(** * appModuleHandler: the application-module registry of NVDA

    A shallow embedding of [source/appModuleHandler.py] and the properties
    of its operations: resolving a process to an application name, fetching
    the appModule class for an application, the per-process cache
    [runningTable] with its eviction pass, key map loading with layout
    fallback, and start-up.

    Python objects that are shared and mutated (appModule instances) live
    in an explicit heap and are named by references; module globals
    ([runningTable], [default], [NVDAProcessID]) are fields of the state;
    every call into a collaborator (log, speech, the Windows API, the
    importer, the file system) that a property talks about leaves an event
    in the trace. *)

From Stdlib Require Import ZArith String Ascii List Bool Lia.
From stdpp Require Import gmap strings list pretty.

Open Scope string_scope.
Open Scope list_scope.
Open Scope Z_scope.

(** ** Python strings *)

Module PyStr.

(** [str.isspace] and the regular expression class [\s] on 8-bit strings:
    space, \t, \n, \v, \f, \r. *)
Definition is_space (c : ascii) : bool :=
  let n := nat_of_ascii c in
  ((9 <=? n)%nat && (n <=? 13)%nat) || (n =? 32)%nat.

(** The line terminator of a text file read in mode 'r'. *)
Definition nl : string := String "010" EmptyString.

Definition chars (s : string) : list ascii := list_ascii_of_string s.
Definition str (l : list ascii) : string := string_of_list_ascii l.

(** [x.isspace()]: at least one character, and all of them white space. *)
Definition isspace (s : string) : bool :=
  match chars s with
  | [] => false
  | l => forallb is_space l
  end.

(** [x.startswith(p)] *)
Definition startswith (p s : string) : bool := String.prefix p s.

Definition lower_char (c : ascii) : ascii :=
  let n := nat_of_ascii c in
  if ((65 <=? n)%nat && (n <=? 90)%nat)%bool then ascii_of_nat (n + 32) else c.

(** [s.lower()] *)
Definition lower (s : string) : string := str (map lower_char (chars s)).

Fixpoint rfind_aux (c : ascii) (l : list ascii) (i acc : Z) : Z :=
  match l with
  | [] => acc
  | a :: t => rfind_aux c t (i + 1) (if Ascii.eqb a c then i else acc)
  end.

(** [p.rfind(c)] for a one-character [c]: the last index, or -1. *)
Definition rfind (c : ascii) (p : string) : Z := rfind_aux c (chars p) 0 (-1).

(** The [while filenameIndex < dotIndex] loop of [genericpath._splitext]:
    is there a character other than the dot among the [n] characters
    starting at [filenameIndex]? *)
Fixpoint has_non_dot (l : list ascii) (n : nat) : bool :=
  match n, l with
  | O, _ => false
  | S n', [] => false
  | S n', a :: t => if Ascii.eqb a "." then has_non_dot t n' else true
  end.

(** [os.path.splitext] of the Windows flavour of [os.path] (separator
    backslash, alternative separator slash, extension separator dot;
    leading dots of the file name are not an extension). *)
Definition splitext (p : string) : string * string :=
  let sepIndex := Z.max (rfind "\" p) (rfind "/" p) in
  let dotIndex := rfind "." p in
  if (sepIndex <? dotIndex) &&
     has_non_dot (drop (Z.to_nat (sepIndex + 1)) (chars p))
                 (Z.to_nat (dotIndex - (sepIndex + 1)))
  then (str (take (Z.to_nat dotIndex) (chars p)),
        str (drop (Z.to_nat dotIndex) (chars p)))
  else (p, "").

(** [os.path.basename] of the same flavour: what follows the drive
    letter and the last separator. The code never calls it; it states
    what stripping the path of an executable name would mean. *)
Definition is_sep (c : ascii) : bool := Ascii.eqb c "\" || Ascii.eqb c "/".

Definition splitdrive_tail (l : list ascii) : list ascii :=
  match l with
  | d :: c :: t => if Ascii.eqb c ":" then t else l
  | _ => l
  end.

Definition basename (p : string) : string :=
  str (fold_left (fun tail c => if is_sep c then [] else tail ++ [c])
                 (splitdrive_tail (chars p)) []).

End PyStr.

(** ** Regular expressions of the shape used by [re_keyScript]

    A sequence of quantified character classes, some of them named groups,
    matched from the start of the string ([re.match]) up to [$], greedy
    with backtracking as Python's engine does. *)

Module Re.

Inductive CharClass :=
| cc_space                    (* \s *)
| cc_nonspace                 (* \S and [\S] *)
| cc_lit (c : ascii).

Inductive Quant := q_one | q_star | q_plus.

Record Atom := mkAtom {
  a_class : CharClass;
  a_quant : Quant;
  a_group : option string
}.

Definition Groups := list (string * string).

Definition in_class (cc : CharClass) (c : ascii) : bool :=
  match cc with
  | cc_space => PyStr.is_space c
  | cc_nonspace => negb (PyStr.is_space c)
  | cc_lit d => Ascii.eqb c d
  end.

(** Length of the longest prefix of [s] made of characters of [cc]. *)
Fixpoint span (cc : CharClass) (s : list ascii) : nat :=
  match s with
  | [] => O
  | c :: t => if in_class cc c then S (span cc t) else O
  end.

(** [$]: the end of the string, or just before a final newline. *)
Definition at_end (s : list ascii) : bool :=
  match s with
  | [] => true
  | [c] => Ascii.eqb c "010"
  | _ => false
  end.

(** Greedy choice of a repetition count: [k], then [k-1], ... down to
    [lo]; the first count for which the rest of the pattern matches wins. *)
Fixpoint greedy {R} (try : nat -> option R) (lo k : nat) : option R :=
  if (k <? lo)%nat then None else
  match try k with
  | Some x => Some x
  | None => match k with
            | O => None
            | S k' => greedy try lo k'
            end
  end.

Definition bind_group (g : option string) (txt : list ascii) (gs : Groups) : Groups :=
  match g with
  | None => gs
  | Some name => (name, PyStr.str txt) :: gs
  end.

Fixpoint run (r : list Atom) (s : list ascii) (gs : Groups) : option Groups :=
  match r with
  | [] => if at_end s then Some gs else None
  | a :: r' =>
      let n := span (a_class a) s in
      let try := fun k => run r' (drop k s) (bind_group (a_group a) (take k s) gs) in
      match a_quant a with
      | q_one => greedy try 1 (Nat.min n 1)
      | q_star => greedy try 0 n
      | q_plus => greedy try 1 n
      end
  end.

(** [pattern.match(line)]: [None], or the named groups. *)
Definition rmatch (r : list Atom) (line : string) : option Groups :=
  run r (PyStr.chars line) [].

Fixpoint group (gs : Groups) (name : string) : string :=
  match gs with
  | [] => ""
  | (n, v) :: t => if String.eqb n name then v else group t name
  end.

End Re.

(** [re_keyScript = re.compile(r'^\s*(?P<key>[\S]+)\s*=\s*(?P<script>[\S]+)\s*$')] *)
Definition re_keyScript : list Re.Atom :=
  [ Re.mkAtom Re.cc_space Re.q_star None;
    Re.mkAtom Re.cc_nonspace Re.q_plus (Some "key");
    Re.mkAtom Re.cc_space Re.q_star None;
    Re.mkAtom (Re.cc_lit "=") Re.q_one None;
    Re.mkAtom Re.cc_space Re.q_star None;
    Re.mkAtom Re.cc_nonspace Re.q_plus (Some "script");
    Re.mkAtom Re.cc_space Re.q_star None ].

(** ** Python values, objects and events *)

(** Object identity of an appModule instance. *)
Definition ref := nat.

(** The values that flow into [processID] and [appName]: the registry
    passes integers and strings, [initialize] passes the string
    ['_default'] as process ID and a window handle as name. *)
Inductive PyVal := PInt (z : Z) | PStr (s : string).

Definition pyval_eqb (a b : PyVal) : bool :=
  match a, b with
  | PInt x, PInt y => (x =? y)%Z
  | PStr x, PStr y => String.eqb x y
  | _, _ => false
  end.

(** ["%s" % v] *)
Definition py_str (v : PyVal) : string :=
  match v with
  | PInt z => pretty z
  | PStr s => s
  end.

(** The classes an appModule instance can have: the base class
    [AppModule] of this file, or the class exported by the extension
    module of that name. *)
Inductive PyClass := AppModule | Imported (modname : string).

Definition pyclass_eqb (a b : PyClass) : bool :=
  match a, b with
  | AppModule, AppModule => true
  | Imported x, Imported y => String.eqb x y
  | _, _ => false
  end.

(** What the attribute [AppModule] of an imported extension can be bound
    to: [None], a class, or an object that is false in a condition (0, an
    empty string, ...). *)
Inductive PyObj := PyNone | PyClassObj (c : PyClass) | PyFalsy.

(** [if o:] *)
Definition truthy (o : PyObj) : bool :=
  match o with
  | PyClassObj _ => true
  | PyNone | PyFalsy => false
  end.

(** [__import__(appName,globals(),locals(),[]).AppModule] *)
Inductive ImportResult :=
| ImportRaises                       (* syntax error, import error, ... *)
| ImportedWithout                    (* loads, has no attribute AppModule *)
| ImportedWith (attr : PyObj).       (* loads, AppModule is bound to attr *)

Inductive PyExn :=
| RuntimeError (msg : string)
| NameError (name : string)
| AttributeError (attr : string)
| KeyError (key : PyVal)
| TypeError
| DanglingRef (r : ref).             (* not reachable from Python *)

(** An instance of [AppModule] or of a subclass: its class and its
    [__dict__]. The fields are read as [Obj.appName o]. *)
Module Obj.
Record t := mk {
  cls : PyClass;
  processID : PyVal;
  appName : PyVal;
  processHandle : Z;
  _keyMap : option (gmap string string)  (* None: '_keyMap' not in __dict__ *)
}.
End Obj.
Abbreviation AppModuleObj := Obj.t.

Inductive Level := DEBUG | INFO | ERROR.

(** The messages this file logs, by format string. *)
Inductive LogMsg :=
| msg_appName (name : string)                       (* "appName: %s" *)
| msg_moduleExists (name : string) (res : bool)     (* "Does appModules/%s.py exist: %s" *)
| msg_foundKeymap (name fname : string)             (* "Found keymap file for %s at %s" *)
| msg_noKeymap (name : string)                      (* "No keymapFile for %s" *)
| msg_usingWindow (fg : Z) (amod : option ref)      (* "Using window %s (%s), got appModule %s" *)
| msg_loadedAppModule (name : PyVal)                (* "Loaded appModule %s" *)
| msg_appClosed (name : PyVal)                      (* "application %s closed" *)
| msg_errorBinding (script key name : string)       (* "error binding %s to %s in module %s" *)
| msg_addedBindings (bindCount : nat) (name fname : string)
                                                    (* "added %s bindings to module %s from file %s" *)
| msg_errorInAppModule (name : string)              (* "Error in appModule %s" *)
| msg_loadedDefault.                                (* "loaded default appModule" *)

(** Calls into the collaborators, in the order they happen. *)
Inductive Event :=
| ev_log (lvl : Level) (m : LogMsg)
| ev_speakMessage (text : string)
| ev_CreateToolhelp32Snapshot
| ev_CloseHandle
| ev_openProcess (pid : PyVal)
| ev_waitForSingleObject (h : Z)
| ev_import (name : string)
| ev_open (fname : string)
| ev_bindKey_runtime (r : ref) (key script : string)
| ev_appLoseFocus (r : ref)
| ev_getForegroundWindow.

(** The collaborators, as one call of this module sees them. *)
Record World := mkWorld {
  os_getpid : Z;
  (* the toolhelp snapshot: th32ProcessID and szExeFile of each entry *)
  snapshot : list (Z * string);
  (* os.path.isfile *)
  isfile : string -> bool;
  (* the lines a text file yields when iterated *)
  readlines : string -> list string;
  import_module : string -> ImportResult;
  (* config.conf["keyboard"]["keyboardLayout"] *)
  keyboardLayout : string;
  (* winKernel.openProcess(SYNCHRONIZE,False,processID) *)
  openProcess : PyVal -> Z;
  (* winKernel.waitForSingleObject(handle,0) *)
  waitForSingleObject : Z -> Z;
  (* baseObject.ScriptableObject.bindKey_runtime: the instance afterwards,
     and whether the call returned ([true]) or raised ([false]) *)
  bindKey_runtime : AppModuleObj -> string -> string -> AppModuleObj * bool;
  (* hasattr(mod,'event_appLoseFocus') *)
  has_event_appLoseFocus : PyClass -> bool;
  (* api.getFocusAncestors()+[api.getFocusObject()], each object [o]
     reduced to [o and o.appModule]: an appModule, or nothing *)
  focusObjects : list (option ref);
  getForegroundWindow : Z;
  getDesktopWindow : Z;
  (* log.isEnabledFor(log.DEBUG) *)
  isEnabledFor_DEBUG : bool;
  (* winUser.getWindowThreadProcessID(hwnd)[0], when the window exists *)
  windowProcessID : Z -> option Z
}.

(** The module globals and the heap of instances. *)
Record State := mkState {
  runningTable : gmap Z (option ref);
  default : option ref;
  NVDAProcessID : option Z;
  heap : gmap ref AppModuleObj;
  next_ref : ref;
  trace : list Event
}.

(** The state after more events, everything else as it was. *)
Definition emitted (s : State) (evs : list Event) : State :=
  mkState (runningTable s) (default s) (NVDAProcessID s)
          (heap s) (next_ref s) (trace s ++ evs).

(** The state after the instance [r] has been mutated into [o]. *)
Definition stored (s : State) (r : ref) (o : AppModuleObj) : State :=
  mkState (runningTable s) (default s) (NVDAProcessID s)
          (<[r := o]> (heap s)) (next_ref s) (trace s).

(** The state after a new instance [o] has been created. *)
Definition allocated (s : State) (o : AppModuleObj) : State :=
  mkState (runningTable s) (default s) (NVDAProcessID s)
          (<[next_ref s := o]> (heap s)) (S (next_ref s)) (trace s).

(** ** The monad of Python statements: state and exceptions *)

Inductive Res (A : Type) := Ok (a : A) | Raise (e : PyExn).
Arguments Ok {A} a.
Arguments Raise {A} e.

Definition M (A : Type) : Type := State -> Res A * State.

Definition ret {A} (a : A) : M A := fun s => (Ok a, s).

Definition bind {A B} (m : M A) (k : A -> M B) : M B :=
  fun s => match m s with
           | (Ok a, s') => k a s'
           | (Raise e, s') => (Raise e, s')
           end.

Definition raise {A} (e : PyExn) : M A := fun s => (Raise e, s).

Definition get : M State := fun s => (Ok s, s).

Definition modify (f : State -> State) : M unit := fun s => (Ok tt, f s).

Declare Scope py_scope.
Delimit Scope py_scope with py.
Notation "x <- c1 ;; c2" := (bind c1 (fun x => c2))
  (at level 100, c1 at next level, right associativity) : py_scope.
Notation "c1 ;; c2" := (bind c1 (fun _ => c2))
  (at level 100, right associativity) : py_scope.
Open Scope py_scope.

Definition emit (e : Event) : M unit := modify (fun s => emitted s [e]).

Definition log (lvl : Level) (m : LogMsg) : M unit := emit (ev_log lvl m).

Definition set_runningTable (t : gmap Z (option ref)) : M unit :=
  modify (fun s => mkState t (default s) (NVDAProcessID s)
                           (heap s) (next_ref s) (trace s)).

Definition set_default (d : option ref) : M unit :=
  modify (fun s => mkState (runningTable s) d (NVDAProcessID s)
                           (heap s) (next_ref s) (trace s)).

Definition set_NVDAProcessID (p : option Z) : M unit :=
  modify (fun s => mkState (runningTable s) (default s) p
                           (heap s) (next_ref s) (trace s)).

(** Attribute access on an instance. *)
Definition deref (r : ref) : M AppModuleObj :=
  s <- get ;;
  match heap s !! r with
  | Some o => ret o
  | None => raise (DanglingRef r)
  end.

(** Mutation of an instance, seen through every reference to it. *)
Definition store (r : ref) (o : AppModuleObj) : M unit := modify (fun s => stored s r o).

(** A new instance: an identity no other instance has. *)
Definition alloc (o : AppModuleObj) : M ref :=
  s <- get ;;
  modify (fun s => allocated s o) ;;
  ret (next_ref s).

Fixpoint forM_ {A} (l : list A) (body : A -> M unit) : M unit :=
  match l with
  | [] => ret tt
  | x :: t => body x ;; forM_ t body
  end.

(** ** The functions of appModuleHandler.py *)

(** The names bound at module level when the file has been executed:
    its imports, assignments, [def]s and [class]es. *)
Definition module_globals : list string :=
  [ "re"; "ctypes"; "os"; "baseObject"; "globalVars"; "log"; "speech";
    "winUser"; "winKernel"; "config"; "NVDAObjects"; "api";
    "__path__"; "runningTable"; "activeModule"; "default"; "NVDAProcessID";
    "re_keyScript"; "TProcessEntry32";
    "getAppNameFromProcessID"; "moduleExists"; "getKeyMapFileName";
    "getActiveModule"; "getAppModuleForNVDAObject";
    "getAppModuleFromProcessID"; "update"; "loadKeyMap";
    "fetchAppModuleClass"; "initialize"; "AppModule" ].

Definition name_bound (name : string) : bool :=
  existsb (String.eqb name) module_globals.

(** A call through a global name: [NameError] when the name is unbound. *)
Definition call_global {A} (name : string) (f : M A) : M A :=
  if name_bound name then f else raise (NameError name).

(** ['appModules/%s.py'%name] *)
Definition modulePath (name : string) : string := "appModules/" +:+ name +:+ ".py".

(** ['appModules/%s_%s.kbd'%(appName,layout)] *)
Definition keyMapPath (appName layout : string) : string :=
  "appModules/" +:+ appName +:+ "_" +:+ layout +:+ ".kbd".

Section AppModuleHandler.

Variable W : World.

(** The [while ContinueLoop] scan of the snapshot; [str()] when no entry
    has the process ID. *)
Fixpoint scan_snapshot (entries : list (Z * string)) (processID : PyVal) : string :=
  match entries with
  | [] => ""
  | (th32ProcessID, szExeFile) :: rest =>
      if pyval_eqb (PInt th32ProcessID) processID then szExeFile
      else scan_snapshot rest processID
  end.

Definition getAppNameFromProcessID (processID : PyVal) (includeExt : bool) : M string :=
  s <- get ;;
  if match NVDAProcessID s with
     | Some nvda => pyval_eqb processID (PInt nvda)
     | None => false
     end
  then ret (if includeExt then "nvda.exe" else "nvda")
  else
    emit ev_CreateToolhelp32Snapshot ;;
    let appName := scan_snapshot (snapshot W) processID in
    emit ev_CloseHandle ;;
    let appName :=
      if negb includeExt then PyStr.lower (fst (PyStr.splitext appName)) else appName in
    log DEBUG (msg_appName appName) ;;
    ret appName.

Definition moduleExists (name : string) : M bool :=
  let res := isfile W (modulePath name) in
  log DEBUG (msg_moduleExists name res) ;;
  ret res.

(** [getKeyMapFileName] calls itself; [depth] bounds the nesting of
    calls, as the interpreter's recursion limit does. *)
Fixpoint getKeyMapFileName_rec (depth : nat) (appName layout : string) : M (option string) :=
  match depth with
  | O => raise (RuntimeError "maximum recursion depth exceeded")
  | S depth' =>
      let fname := keyMapPath appName layout in
      if isfile W fname then
        log DEBUG (msg_foundKeymap appName fname) ;;
        ret (Some fname)
      else if negb (String.eqb layout "desktop") then
        getKeyMapFileName_rec depth' appName "desktop"
      else
        log DEBUG (msg_noKeymap appName) ;;
        ret None
  end.

Definition getKeyMapFileName : string -> string -> M (option string) :=
  getKeyMapFileName_rec 2.

Definition fetchAppModuleClass (appName : string) : M PyObj :=
  found <- moduleExists appName ;;
  amod <- (if found then
             emit (ev_import appName) ;;
             match import_module W appName with
             | ImportedWith attr => ret attr
             | ImportRaises | ImportedWithout =>
                 log ERROR (msg_errorInAppModule appName) ;;
                 emit (ev_speakMessage ("Error in appModule " +:+ appName)) ;;
                 raise (RuntimeError "")
             end
           else ret PyNone) ;;
  match amod with
  | PyNone => ret (PyClassObj AppModule)
  | _ => ret amod
  end.

(** [AppModule.__init__], which the extension classes inherit. *)
Definition AppModule__init__ (c : PyClass) (processID : PyVal) (appName : option PyVal)
  : M ref :=
  appName <- match appName with
             | None => n <- getAppNameFromProcessID processID false ;; ret (PStr n)
             | Some a => ret a
             end ;;
  emit (ev_openProcess processID) ;;
  alloc (Obj.mk c processID appName (openProcess W processID) None).

(** [modClass(processID,appName)] *)
Definition instantiate (modClass : PyObj) (processID : PyVal) (appName : option PyVal)
  : M ref :=
  match modClass with
  | PyClassObj c => AppModule__init__ c processID appName
  | PyNone | PyFalsy => raise TypeError
  end.

(** [AppModule._get_isAlive] *)
Definition isAlive (r : ref) : M bool :=
  o <- deref r ;;
  emit (ev_waitForSingleObject (Obj.processHandle o)) ;;
  ret (negb (waitForSingleObject W (Obj.processHandle o) =? 0)).

(** The lines [loadKeyMap] looks at:
    [(x for x in keyMapFile if not x.startswith('#') and not x.isspace())] *)
Definition keyMapLines (fname : string) : list string :=
  List.filter (fun x => negb (PyStr.startswith "#" x) && negb (PyStr.isspace x))
              (readlines W fname).

(** The [for line in ...] loop of [loadKeyMap]; returns [bindCount]. *)
Fixpoint bindLines (appName : string) (amod : ref) (lines : list string) (bindCount : nat)
  : M nat :=
  match lines with
  | [] => ret bindCount
  | line :: rest =>
      match Re.rmatch re_keyScript line with
      | Some m =>
          o <- deref amod ;;
          emit (ev_bindKey_runtime amod (Re.group m "key") (Re.group m "script")) ;;
          let r := bindKey_runtime W o (Re.group m "key") (Re.group m "script") in
          store amod (fst r) ;;
          if snd r then bindLines appName amod rest (S bindCount)
          else
            log ERROR (msg_errorBinding (Re.group m "script") (Re.group m "key") appName) ;;
            bindLines appName amod rest bindCount
      | None => bindLines appName amod rest bindCount
      end
  end.

Definition loadKeyMap (appName : string) (amod : ref) : M bool :=
  let layout := keyboardLayout W in
  keyMapFileName <- getKeyMapFileName appName layout ;;
  match keyMapFileName with
  | None => ret false
  | Some fname =>
      emit (ev_open fname) ;;
      o <- deref amod ;;
      match Obj._keyMap o with
      | Some _ =>
          store amod (Obj.mk (Obj.cls o) (Obj.processID o) (Obj.appName o)
                             (Obj.processHandle o) (Some ∅))
      | None => ret tt
      end ;;
      bindCount <- bindLines appName amod (keyMapLines fname) 0 ;;
      log DEBUG (msg_addedBindings bindCount appName fname) ;;
      ret true
  end.

Definition getAppModuleFromProcessID (processID : Z) : M (option ref) :=
  s <- get ;;
  match runningTable s !! processID with
  | Some (Some r) => ret (Some r)
  | Some None | None =>
      appName <- getAppNameFromProcessID (PInt processID) false ;;
      modClass <- fetchAppModuleClass appName ;;
      amod <- (if truthy modClass then
                 r <- instantiate modClass (PInt processID) (Some (PStr appName)) ;;
                 o <- deref r ;;
                 (if negb (match modClass with
                           | PyClassObj c => pyclass_eqb c AppModule
                           | _ => false
                           end)
                  then log INFO (msg_loadedAppModule (Obj.appName o))
                  else ret tt) ;;
                 loadKeyMap (py_str (Obj.appName o)) r ;;
                 ret (Some r)
               else ret None) ;;
      s' <- get ;;
      set_runningTable (<[processID := amod]> (runningTable s')) ;;
      ret amod
  end.

(** [obj]: the [windowProcessID] of an object that is a
    [NVDAObjects.window.Window], nothing for any other object. *)
Definition getAppModuleForNVDAObject (obj : option Z) : M (option ref) :=
  match obj with
  | None => ret None
  | Some windowProcessID => getAppModuleFromProcessID windowProcessID
  end.

(** Modelled from the spec: [getAppModuleFromWindow], which
    [getActiveModule] calls and this file does not define. The spec has
    the active module resolver extract the process that owns the
    foreground window and delegate to the registry lookup, with an
    unresolved result when that process cannot be determined. *)
Definition getAppModuleFromWindow (windowHandle : Z) : M (option ref) :=
  match windowProcessID W windowHandle with
  | Some pid => getAppModuleFromProcessID pid
  | None => ret None
  end.

Definition getActiveModule : M (option ref) :=
  emit ev_getForegroundWindow ;;
  let fg := getForegroundWindow W in
  amod <- call_global "getAppModuleFromWindow" (getAppModuleFromWindow fg) ;;
  (if isEnabledFor_DEBUG W then log DEBUG (msg_usingWindow fg amod) else ret tt) ;;
  ret amod.

(** [[mod for mod in runningTable.itervalues() if not mod.isAlive]] *)
Fixpoint deadMods (values : list (option ref)) : M (list ref) :=
  match values with
  | [] => ret []
  | None :: _ => raise (AttributeError "isAlive")
  | Some r :: rest =>
      alive <- isAlive r ;;
      dead <- deadMods rest ;;
      ret (if negb alive then r :: dead else dead)
  end.

(** [del runningTable[key]] *)
Definition del_runningTable (key : PyVal) : M unit :=
  s <- get ;;
  match key with
  | PInt k =>
      match runningTable s !! k with
      | Some _ => set_runningTable (delete k (runningTable s))
      | None => raise (KeyError key)
      end
  | PStr _ => raise (KeyError key)
  end.

(** [deadMod in set(o.appModule for o in ... if o and o.appModule)] *)
Definition inFocus (deadMod : ref) : bool :=
  existsb (fun o => match o with
                    | Some r => (r =? deadMod)%nat
                    | None => false
                    end) (focusObjects W).

(** The body of the [for deadMod in ...] loop of [update]; the lookup of
    [processID] is its last statement. *)
Definition update_body (processID : Z) (deadMod : ref) : M unit :=
  o <- deref deadMod ;;
  log DEBUG (msg_appClosed (Obj.appName o)) ;;
  del_runningTable (Obj.processID o) ;;
  (if inFocus deadMod then
     if has_event_appLoseFocus W (Obj.cls o) then emit (ev_appLoseFocus deadMod)
     else ret tt
   else ret tt) ;;
  getAppModuleFromProcessID processID ;;
  ret tt.

(** The values are visited in the order of [map_to_list]; a Python
    dictionary has some order of its own, and nothing proved below
    depends on which. *)
Definition update (processID : Z) : M unit :=
  s <- get ;;
  dead <- deadMods ((map_to_list (runningTable s)).*2) ;;
  forM_ dead (update_body processID).

Definition initialize : M unit :=
  set_NVDAProcessID (Some (os_getpid W)) ;;
  defaultModClass <- fetchAppModuleClass "_default" ;;
  (if truthy defaultModClass then
     r <- instantiate defaultModClass (PStr "_default")
                      (Some (PInt (getDesktopWindow W))) ;;
     set_default (Some r)
   else ret tt) ;;
  s <- get ;;
  match default s with
  | Some d =>
      loaded <- loadKeyMap "_default" d ;;
      if loaded then log INFO msg_loadedDefault
      else
        emit (ev_speakMessage "Could not load default module keyMap") ;;
        raise (RuntimeError "appModuleHandler.initialize: could not load default module keymap")
  | None =>
      emit (ev_speakMessage "Could not load default module ") ;;
      raise (RuntimeError "appModuleHandler.initialize: could not load default module ")
  end.

End AppModuleHandler.

(** ** A concrete desktop, for examples

    Five processes; extensions for Word (with a desktop key map), a broken
    one and one that exports no [AppModule]; no [_default.py], but a
    desktop key map for the default module; the laptop layout configured. *)

Definition demo_files : list string :=
  [ "appModules/winword.py"; "appModules/winword_desktop.kbd";
    "appModules/broken.py"; "appModules/nosymbol.py";
    "appModules/_default_desktop.kbd"; "appModules/bogus_laptop.kbd" ].

Definition demo_scripts : list string := [ "doSomething"; "sayTitle" ].

(** Modelled from the spec: [bindKey_runtime] of [baseObject], which is not
    part of this file. It binds the key to the script in the instance's own
    key map and fails for a script the instance does not have. *)
Definition demo_bindKey_runtime (o : AppModuleObj) (key script : string)
  : AppModuleObj * bool :=
  if existsb (String.eqb script) demo_scripts then
    (Obj.mk (Obj.cls o) (Obj.processID o) (Obj.appName o) (Obj.processHandle o)
            (Some (<[key := script]> (match Obj._keyMap o with
                                      | Some km => km
                                      | None => ∅
                                      end))), true)
  else (o, false).

Definition demoWorld : World := {|
  os_getpid := 1000;
  snapshot := [ (4, "System"); (42, "C:\WINDOWS\Notepad.EXE"); (77, "WinWord.exe");
                (88, "broken.exe"); (99, "nosymbol.exe") ];
  isfile := fun f => existsb (String.eqb f) demo_files;
  readlines := fun f =>
    if String.eqb f "appModules/winword_desktop.kbd" then
      [ "# keys of Word" +:+ PyStr.nl; PyStr.nl;
        "ctrl+a = doSomething" +:+ PyStr.nl;
        "bogusline" +:+ PyStr.nl;
        "ctrl+b = noSuchScript" +:+ PyStr.nl;
        "ctrl+t=sayTitle" +:+ PyStr.nl ]
    else if String.eqb f "appModules/bogus_laptop.kbd" then
      [ "bogusline" +:+ PyStr.nl ]
    else [];
  import_module := fun name =>
    if String.eqb name "winword" then ImportedWith (PyClassObj (Imported "winword"))
    else if String.eqb name "nosymbol" then ImportedWithout
    else ImportRaises;
  keyboardLayout := "laptop";
  openProcess := fun p => match p with PInt z => 5000 + z | PStr _ => 0 end;
  (* 5004 and 5042 are signalled: processes 4 and 42 have exited;
     258 is WAIT_TIMEOUT *)
  waitForSingleObject := fun h => if (h =? 5004) || (h =? 5042) then 0 else 258;
  bindKey_runtime := demo_bindKey_runtime;
  has_event_appLoseFocus := fun c => match c with Imported _ => true | AppModule => false end;
  focusObjects := [ None; Some 0%nat ];
  getForegroundWindow := 300;
  getDesktopWindow := 100;
  isEnabledFor_DEBUG := true;
  windowProcessID := fun h => if h =? 300 then Some 77 else None
|}.

(** The module just executed: nothing cached, no default, no process ID. *)
Definition s_init : State := mkState ∅ None None ∅ 0%nat [].

(** After start-up, before any lookup. *)
Definition s_started : State := mkState ∅ None (Some 1000) ∅ 0%nat [].

(** [s'] differs from [s] at most in the instance [amod], which is still
    there, and in the trace. *)
Definition only_mutates (amod : ref) (s s' : State) : Prop :=
  runningTable s' = runningTable s /\
  default s' = default s /\
  NVDAProcessID s' = NVDAProcessID s /\
  next_ref s' = next_ref s /\
  (forall r, r <> amod -> heap s' !! r = heap s !! r) /\
  (is_Some (heap s !! amod) -> is_Some (heap s' !! amod)).

(** Word runs as process 77 and has been looked up once: its instance,
    with the two bindings of its key map file, is cached. *)
Definition s_word : State :=
  mkState {[ 77 := Some 0%nat ]} None (Some 1000)
          {[ 0%nat := Obj.mk (Imported "winword") (PInt 77) (PStr "winword") 5077
                             (Some {[ "ctrl+a" := "doSomething"; "ctrl+t" := "sayTitle" ]}) ]}
          1%nat [].

(** The same desktop with every file empty. *)
Definition demoWorld_empty_files : World :=
  mkWorld (os_getpid demoWorld) (snapshot demoWorld) (isfile demoWorld) (fun _ => [])
          (import_module demoWorld) (keyboardLayout demoWorld) (openProcess demoWorld)
          (waitForSingleObject demoWorld) (bindKey_runtime demoWorld)
          (has_event_appLoseFocus demoWorld) (focusObjects demoWorld)
          (getForegroundWindow demoWorld) (getDesktopWindow demoWorld)
          (isEnabledFor_DEBUG demoWorld) (windowProcessID demoWorld).

(** The state after looking up the process IDs [pids] one after the other,
    whether the lookups return or raise. *)
Definition lookups (W : World) (pids : list Z) (s : State) : State :=
  fold_left (fun s pid => snd (getAppModuleFromProcessID W pid s)) pids s.

(** Word and Notepad cached; Notepad, process 42, has exited since. *)
Definition s_two : State :=
  mkState {[ 42 := Some 1%nat; 77 := Some 0%nat ]} None (Some 1000)
          {[ 0%nat := Obj.mk (Imported "winword") (PInt 77) (PStr "winword") 5077
                             (Some {[ "ctrl+a" := "doSomething"; "ctrl+t" := "sayTitle" ]});
             1%nat := Obj.mk AppModule (PInt 42) (PStr "c:\windows\notepad") 5042 None ]}
          2%nat [].

(** Two cached instances, both of processes that have exited. *)
Definition s_two_dead : State :=
  mkState {[ 4 := Some 0%nat; 42 := Some 1%nat ]} None (Some 1000)
          {[ 0%nat := Obj.mk AppModule (PInt 4) (PStr "system") 5004 None;
             1%nat := Obj.mk AppModule (PInt 42) (PStr "c:\windows\notepad") 5042 None ]}
          2%nat [].

(** What a lookup can do to the registry and to the instances: the
    instances there are stay as they are, and the only entry that can
    change is the one of the process looked up, to nothing or to a new
    instance. *)
Definition lookup_frame (pid : Z) (s s' : State) : Prop :=
  (next_ref s <= next_ref s')%nat /\
  (forall r, (r < next_ref s)%nat -> heap s' !! r = heap s !! r) /\
  (forall k, runningTable s' !! k = runningTable s !! k \/
             (k = pid /\ (runningTable s' !! k = Some None \/
                          exists r : ref, runningTable s' !! k = Some (Some r) /\
                                          (next_ref s <= r)%nat))).

(** ** Notions the further properties are stated with *)

(** What a match of a pattern means, stated without the matcher: the text
    splits into one segment per atom, each made of characters of the atom's
    class and as many as its quantifier allows, up to [$]. *)

(** Every character of [l] is of the class [cc]. *)
Definition all_in (cc : Re.CharClass) (l : list ascii) : Prop :=
  forallb (Re.in_class cc) l = true.

(** [n] repetitions are what the quantifier [q] allows. *)
Definition quant_ok (q : Re.Quant) (n : nat) : Prop :=
  match q with
  | Re.q_one => n = 1%nat
  | Re.q_star => True
  | Re.q_plus => (1 <= n)%nat
  end.

(** The segments [segs] are one match each of the atoms of [r], in order. *)
Fixpoint segments_ok (r : list Re.Atom) (segs : list (list ascii)) : Prop :=
  match r, segs with
  | [], [] => True
  | a :: r', seg :: segs' =>
      all_in (Re.a_class a) seg /\ quant_ok (Re.a_quant a) (length seg) /\
      segments_ok r' segs'
  | _, _ => False
  end.

(** The groups after the atoms of [r] have matched the segments [segs]. *)
Fixpoint bound_groups (r : list Re.Atom) (segs : list (list ascii)) (gs : Re.Groups)
  : Re.Groups :=
  match r, segs with
  | a :: r', seg :: segs' => bound_groups r' segs' (Re.bind_group (Re.a_group a) seg gs)
  | _, _ => gs
  end.

(** White space only (possibly none). *)
Definition ws := all_in Re.cc_space.

(** At least one character and no white space: a key or a script name. *)
Definition word (l : list ascii) : Prop := all_in Re.cc_nonspace l /\ l <> [].

(** The instance after [loadKeyMap] has cleared its key map: an instance
    with a key map of its own has an empty one, any other is as it was. *)
Definition cleared (o : AppModuleObj) : AppModuleObj :=
  match Obj._keyMap o with
  | Some _ => Obj.mk (Obj.cls o) (Obj.processID o) (Obj.appName o)
                     (Obj.processHandle o) (Some ∅)
  | None => o
  end.

(** The state with [runningTable] replaced. *)
Definition with_runningTable (s : State) (t : gmap Z (option ref)) : State :=
  mkState t (default s) (NVDAProcessID s) (heap s) (next_ref s) (trace s).

(** The instance [AppModule.__init__] builds. *)
Definition new_instance (W : World) (c : PyClass) (pid : Z) (name : string) : AppModuleObj :=
  Obj.mk c (PInt pid) (PStr name) (openProcess W (PInt pid)) None.

(** The events of a lookup between the class being fetched and the call of
    [loadKeyMap]: the process is opened, and a class other than
    [AppModule] is announced in the log. *)
Definition construct_events (c : PyClass) (pid : Z) (name : string) : list Event :=
  ev_openProcess (PInt pid) ::
  (if pyclass_eqb c AppModule then []
   else [ev_log INFO (msg_loadedAppModule (PStr name))]).

(** [bindKey_runtime] binds keys: it leaves the process ID of the
    instance alone. *)
Definition binds_keep_processID (W : World) : Prop :=
  forall o key script,
    Obj.processID (fst (bindKey_runtime W o key script)) = Obj.processID o.

(** Every instance of [s] is still there in [s'], with its process ID. *)
Definition heap_keeps (s s' : State) : Prop :=
  forall (r : ref) o, heap s !! r = Some o ->
    exists o', heap s' !! r = Some o' /\ Obj.processID o' = Obj.processID o.

(** [s'] has the registry of [s] and the same instances, each with the
    process ID it had. *)
Definition same_shape (s s' : State) : Prop :=
  runningTable s' = runningTable s /\
  next_ref s' = next_ref s /\
  (forall r : ref, is_Some (heap s' !! r) -> is_Some (heap s !! r)) /\
  heap_keeps s s'.

(** The registry is consistent: instances have identities below the next
    one to be given out, and every entry is [None] or an existing instance
    that carries the process ID it is cached under. *)
Definition registry_ok (s : State) : Prop :=
  (forall r : ref, is_Some (heap s !! r) -> (r < next_ref s)%nat) /\
  (forall k v, runningTable s !! k = Some v ->
     v = None \/
     exists (r : ref) o, v = Some r /\ heap s !! r = Some o /\ Obj.processID o = PInt k).

(** The calls the host makes into the module. *)
Inductive Call :=
| call_initialize
| call_getAppModuleFromProcessID (processID : Z)
| call_update (processID : Z).

(** The state a call leaves, whether it returns or raises. *)
Definition after_call (W : World) (s : State) (c : Call) : State :=
  match c with
  | call_initialize => snd (initialize W s)
  | call_getAppModuleFromProcessID pid => snd (getAppModuleFromProcessID W pid s)
  | call_update pid => snd (update W pid s)
  end.

Definition after_calls (W : World) (calls : list Call) (s : State) : State :=
  fold_left (after_call W) calls s.

(** A desktop with another file system. *)
Definition with_isfile (W : World) (f : string -> bool) : World :=
  mkWorld (os_getpid W) (snapshot W) f (readlines W)
          (import_module W) (keyboardLayout W) (openProcess W)
          (waitForSingleObject W) (bindKey_runtime W)
          (has_event_appLoseFocus W) (focusObjects W)
          (getForegroundWindow W) (getDesktopWindow W)
          (isEnabledFor_DEBUG W) (windowProcessID W).

(** A desktop with other extensions. *)
Definition with_import_module (W : World) (imp : string -> ImportResult) : World :=
  mkWorld (os_getpid W) (snapshot W) (isfile W) (readlines W)
          imp (keyboardLayout W) (openProcess W)
          (waitForSingleObject W) (bindKey_runtime W)
          (has_event_appLoseFocus W) (focusObjects W)
          (getForegroundWindow W) (getDesktopWindow W)
          (isEnabledFor_DEBUG W) (windowProcessID W).

(** The demo desktop with a [_default.py] that does not import. *)
Definition brokenDefaultWorld : World :=
  with_isfile demoWorld
    (fun f => String.eqb f "appModules/_default.py" || isfile demoWorld f).

(** The demo desktop with an empty [appModules] directory. *)
Definition noFilesWorld : World := with_isfile demoWorld (fun _ => false).

(** The demo desktop where every extension binds [AppModule] to a false
    object. *)
Definition falsyWorld : World :=
  with_import_module demoWorld (fun _ => ImportedWith PyFalsy).

(** The Word instance of [s_word] and [s_two]. *)
Definition word_instance : AppModuleObj :=
  Obj.mk (Imported "winword") (PInt 77) (PStr "winword") 5077
         (Some {[ "ctrl+a" := "doSomething"; "ctrl+t" := "sayTitle" ]}).
(** ** Reasoning about statements *)

Example re_keyScript_simple :
  Re.rmatch re_keyScript "ctrl+a = doSomething" = Some [("script", "doSomething"); ("key", "ctrl+a")].
Proof. reflexivity. Qed.

Example re_keyScript_backtracks :
  Re.rmatch re_keyScript ("  a==b" +:+ PyStr.nl) = Some [("script", "b"); ("key", "a=")].
Proof. reflexivity. Qed.

Example re_keyScript_bogus : Re.rmatch re_keyScript "bogusline" = None.
Proof. reflexivity. Qed.

Example re_keyScript_three : Re.rmatch re_keyScript "a = b = c" = None.
Proof. reflexivity. Qed.

Example splitext_examples :
  PyStr.splitext "Notepad.EXE" = ("Notepad", ".EXE") /\
  PyStr.splitext ".hidden" = (".hidden", "") /\
  PyStr.splitext "C:\dir.d\app" = ("C:\dir.d\app", "") /\
  PyStr.splitext "a.b.c" = ("a.b", ".c") /\
  PyStr.splitext "" = ("", "").
Proof. repeat split; reflexivity. Qed.


Lemma emitted_nil s : emitted s [] = s.
Proof. destruct s; unfold emitted; simpl. by rewrite app_nil_r. Qed.

Lemma emitted_emitted s a b : emitted (emitted s a) b = emitted s (a ++ b).
Proof. unfold emitted; simpl. by rewrite app_assoc. Qed.

Lemma emit_eq e s : emit e s = (Ok tt, emitted s [e]).
Proof. reflexivity. Qed.

Lemma log_eq lvl m s : log lvl m s = (Ok tt, emitted s [ev_log lvl m]).
Proof. reflexivity. Qed.

Lemma store_eq r o s : store r o s = (Ok tt, stored s r o).
Proof. reflexivity. Qed.

Lemma bind_ok {A B} (m : M A) (k : A -> M B) s a s' :
  m s = (Ok a, s') -> bind m k s = k a s'.
Proof. intros H. unfold bind. by rewrite H. Qed.

Lemma bind_raise {A B} (m : M A) (k : A -> M B) s e s' :
  m s = (Raise e, s') -> bind m k s = (Raise e, s').
Proof. intros H. unfold bind. by rewrite H. Qed.

Lemma bind_inv_ok {A B} (m : M A) (k : A -> M B) s b s' :
  bind m k s = (Ok b, s') -> exists a s1, m s = (Ok a, s1) /\ k a s1 = (Ok b, s').
Proof.
  unfold bind. destruct (m s) as [[a|e] s1]; intros H; [eauto | discriminate].
Qed.

Lemma bind_assoc {A B C} (m : M A) (f : A -> M B) (g : B -> M C) s :
  bind (bind m f) g s = bind m (fun a => bind (f a) g) s.
Proof. unfold bind. by destruct (m s) as [[a|e] s1]. Qed.

Lemma deref_ok r o s : heap s !! r = Some o -> deref r s = (Ok o, s).
Proof. intros H. unfold deref, bind, get. by rewrite H. Qed.

(** Unfold the monad in the goal. *)
Ltac monad_simpl :=
  unfold log, set_runningTable, set_default, set_NVDAProcessID, store, deref, alloc;
  unfold emit; unfold bind, ret, raise, get, modify; simpl.

Section Resolver.

Variable W : World.

Lemma scan_snapshot_none (entries : list (Z * string)) (pid : Z) :
  pid ∉ entries.*1 -> scan_snapshot entries (PInt pid) = "".
Proof.
  induction entries as [|[p exe] rest IH]; simpl; [done|].
  intros Hnot. apply not_elem_of_cons in Hnot as [Hne Hrest].
  destruct (Z.eqb_spec p pid); [congruence | auto].
Qed.

Lemma scan_snapshot_first (pre : list (Z * string)) (pid : Z) exe post :
  pid ∉ pre.*1 -> scan_snapshot (pre ++ (pid, exe) :: post) (PInt pid) = exe.
Proof.
  induction pre as [|[p e] rest IH]; simpl.
  - intros _. by rewrite Z.eqb_refl.
  - intros Hnot. apply not_elem_of_cons in Hnot as [Hne Hrest].
    destruct (Z.eqb_spec p pid); [congruence | auto].
Qed.

(** The entry the scan stops at, if any. *)
Lemma snapshot_split (entries : list (Z * string)) (pid : Z) :
  pid ∉ entries.*1 \/
  exists pre exe post, entries = pre ++ (pid, exe) :: post /\ pid ∉ pre.*1.
Proof.
  induction entries as [|[p e] rest IH]; [left; simpl; apply not_elem_of_nil|].
  destruct (decide (p = pid)) as [->|Hne].
  - right. exists [], e, rest. split; [done | simpl; apply not_elem_of_nil].
  - destruct IH as [Hnot | (pre & exe & post & -> & Hpre)].
    + left. simpl. apply not_elem_of_cons. auto.
    + right. exists ((p, e) :: pre), exe, post. split; [done|].
      simpl. apply not_elem_of_cons. auto.
Qed.

Lemma getAppNameFromProcessID_own pid (includeExt : bool) s :
  NVDAProcessID s = Some pid ->
  getAppNameFromProcessID W (PInt pid) includeExt s
  = (Ok (if includeExt then "nvda.exe" else "nvda"), s).
Proof.
  intros Hown. unfold getAppNameFromProcessID. monad_simpl.
  rewrite Hown. simpl. by rewrite Z.eqb_refl.
Qed.

Lemma getAppNameFromProcessID_other pid (includeExt : bool) s :
  NVDAProcessID s <> Some pid ->
  let exe := scan_snapshot (snapshot W) (PInt pid) in
  let name := if includeExt then exe else PyStr.lower (fst (PyStr.splitext exe)) in
  getAppNameFromProcessID W (PInt pid) includeExt s
  = (Ok name,
     emitted s [ev_CreateToolhelp32Snapshot; ev_CloseHandle; ev_log DEBUG (msg_appName name)]).
Proof.
  intros Hother exe name. unfold getAppNameFromProcessID. monad_simpl.
  destruct (NVDAProcessID s) as [nvda|] eqn:Hn; simpl.
  - destruct (Z.eqb_spec pid nvda) as [->|_]; [congruence|].
    unfold emitted; simpl. subst name exe.
    destruct includeExt; simpl; by rewrite <- !app_assoc.
  - unfold emitted; simpl. subst name exe.
    destruct includeExt; simpl; by rewrite <- !app_assoc.
Qed.

End Resolver.

(** ** The process identity resolver *)

(** C8 (as amended): for NVDA's own process ID the fixed name is returned
    and the state, trace included, is untouched (no snapshot is taken).
    For any other process ID the snapshot is taken and closed, the name is
    the executable file name of the first entry with that process ID, taken
    as the entry has it (no path component is removed) and, unless
    [includeExt] is set, with its extension split off and lower-cased; when
    no entry has the process ID the name is empty and nothing is raised. *)
Theorem getAppNameFromProcessID_resolves W (pid : Z) (includeExt : bool) s :
  (NVDAProcessID s = Some pid ->
     getAppNameFromProcessID W (PInt pid) includeExt s
     = (Ok (if includeExt then "nvda.exe" else "nvda"), s)) /\
  (NVDAProcessID s <> Some pid ->
     exists exe,
       ((exists pre post, snapshot W = pre ++ (pid, exe) :: post /\ pid ∉ pre.*1) \/
        ((pid ∉ (snapshot W).*1) /\ exe = "")) /\
       (let name := if includeExt then exe else PyStr.lower (fst (PyStr.splitext exe)) in
        getAppNameFromProcessID W (PInt pid) includeExt s
        = (Ok name,
           emitted s [ev_CreateToolhelp32Snapshot; ev_CloseHandle;
                      ev_log DEBUG (msg_appName name)]) /\
        (pid ∉ (snapshot W).*1 -> name = ""))).
Proof.
  split; [apply getAppNameFromProcessID_own|].
  intros Hother.
  exists (scan_snapshot (snapshot W) (PInt pid)).
  split; [|split].
  - destruct (snapshot_split (snapshot W) pid) as [Hnot | (pre & exe & post & Heq & Hpre)].
    + right. split; [done | by apply scan_snapshot_none].
    + left. exists pre, post. rewrite Heq at 2.
      rewrite Heq, scan_snapshot_first by done. done.
  - by apply getAppNameFromProcessID_other.
  - intros Hnot. rewrite scan_snapshot_none by done. by destruct includeExt.
Qed.

Lemma getAppNameFromProcessID_resolves_witness :
  getAppNameFromProcessID demoWorld (PInt 1000) false s_started = (Ok "nvda", s_started) /\
  exists exe,
    ((exists pre post, snapshot demoWorld = pre ++ (77, exe) :: post /\ 77 ∉ pre.*1) \/
     ((77 ∉ (snapshot demoWorld).*1) /\ exe = "")) /\
    (let name := PyStr.lower (fst (PyStr.splitext exe)) in
     getAppNameFromProcessID demoWorld (PInt 77) false s_started
     = (Ok name,
        emitted s_started [ev_CreateToolhelp32Snapshot; ev_CloseHandle;
                           ev_log DEBUG (msg_appName name)]) /\
     (77 ∉ (snapshot demoWorld).*1 -> name = "")).
Proof.
  split.
  - apply (proj1 (getAppNameFromProcessID_resolves demoWorld 1000 false s_started)).
    reflexivity.
  - apply (proj2 (getAppNameFromProcessID_resolves demoWorld 77 false s_started)).
    simpl. discriminate.
Defined.

(** C8 (as stated) fails: an entry whose executable name carries a
    directory keeps it; the result is not the lower-cased base name. *)
Lemma getAppNameFromProcessID_keeps_path :
  fst (getAppNameFromProcessID demoWorld (PInt 42) false s_started)
  = Ok "c:\windows\notepad" /\
  PyStr.lower (fst (PyStr.splitext (PyStr.basename "C:\WINDOWS\Notepad.EXE"))) = "notepad" /\
  fst (getAppNameFromProcessID demoWorld (PInt 42) false s_started)
  <> Ok (PyStr.lower (fst (PyStr.splitext (PyStr.basename "C:\WINDOWS\Notepad.EXE")))).
Proof. split; [reflexivity | split; [reflexivity | discriminate]]. Qed.

(** ** Module discovery and loading *)

Section Loader.

Variable W : World.

Lemma getAppNameFromProcessID_total processID (includeExt : bool) s :
  exists name evs,
    getAppNameFromProcessID W processID includeExt s = (Ok name, emitted s evs).
Proof.
  unfold getAppNameFromProcessID. monad_simpl.
  destruct (match NVDAProcessID s with
            | Some nvda => pyval_eqb processID (PInt nvda)
            | None => false
            end).
  - eexists _, []. by rewrite emitted_nil.
  - eexists _, [_; _; _]. unfold emitted; simpl. by rewrite <- !app_assoc.
Qed.

Lemma moduleExists_eq name s :
  moduleExists W name s
  = (Ok (isfile W (modulePath name)),
     emitted s [ev_log DEBUG (msg_moduleExists name (isfile W (modulePath name)))]).
Proof. reflexivity. Qed.

Lemma fetchAppModuleClass_absent appName s :
  isfile W (modulePath appName) = false ->
  fetchAppModuleClass W appName s
  = (Ok (PyClassObj AppModule), emitted s [ev_log DEBUG (msg_moduleExists appName false)]).
Proof.
  intros Hno. unfold fetchAppModuleClass.
  rewrite (bind_ok _ _ _ _ _ (moduleExists_eq appName s)), Hno. reflexivity.
Qed.

Lemma fetchAppModuleClass_broken appName s :
  isfile W (modulePath appName) = true ->
  import_module W appName = ImportRaises \/ import_module W appName = ImportedWithout ->
  fetchAppModuleClass W appName s
  = (Raise (RuntimeError ""),
     emitted s [ev_log DEBUG (msg_moduleExists appName true);
                ev_import appName;
                ev_log ERROR (msg_errorInAppModule appName);
                ev_speakMessage ("Error in appModule " +:+ appName)]).
Proof.
  intros Hyes Hfail. unfold fetchAppModuleClass.
  rewrite (bind_ok _ _ _ _ _ (moduleExists_eq appName s)), Hyes.
  monad_simpl. unfold emitted; simpl.
  destruct Hfail as [-> | ->]; simpl; by rewrite <- !app_assoc.
Qed.

Lemma fetchAppModuleClass_loaded appName attr s :
  isfile W (modulePath appName) = true ->
  import_module W appName = ImportedWith attr ->
  fetchAppModuleClass W appName s
  = (Ok (match attr with PyNone => PyClassObj AppModule | _ => attr end),
     emitted s [ev_log DEBUG (msg_moduleExists appName true); ev_import appName]).
Proof.
  intros Hyes Himp. unfold fetchAppModuleClass.
  rewrite (bind_ok _ _ _ _ _ (moduleExists_eq appName s)), Hyes.
  monad_simpl. rewrite Himp. unfold emitted; simpl.
  destruct attr; simpl; by rewrite <- !app_assoc.
Qed.

(** What [fetchAppModuleClass] returns is a class or a false object,
    never [None]; and it only adds events. *)
Lemma fetchAppModuleClass_frame appName s :
  exists res evs,
    fetchAppModuleClass W appName s = (res, emitted s evs) /\ res <> Ok PyNone.
Proof.
  destruct (isfile W (modulePath appName)) eqn:Hf.
  - destruct (import_module W appName) as [| |attr] eqn:Hi.
    + eexists _, _. split; [apply fetchAppModuleClass_broken; auto | discriminate].
    + eexists _, _. split; [apply fetchAppModuleClass_broken; auto | discriminate].
    + eexists _, _. split; [by apply fetchAppModuleClass_loaded |].
      destruct attr; discriminate.
  - eexists _, _. split; [by apply fetchAppModuleClass_absent | discriminate].
Qed.

(** A failure of [fetchAppModuleClass] on a cache miss leaves
    [getAppModuleFromProcessID] by the same exception. *)
Lemma getAppModuleFromProcessID_fetch_raises pid s name s1 e s2 :
  (forall r, runningTable s !! pid <> Some (Some r)) ->
  getAppNameFromProcessID W (PInt pid) false s = (Ok name, s1) ->
  fetchAppModuleClass W name s1 = (Raise e, s2) ->
  getAppModuleFromProcessID W pid s = (Raise e, s2).
Proof.
  intros Hmiss Hname Hfetch. unfold getAppModuleFromProcessID.
  unfold bind at 1. unfold get at 1.
  destruct (runningTable s !! pid) as [[r|]|] eqn:Ht.
  - by destruct (Hmiss r).
  - rewrite (bind_ok _ _ _ _ _ Hname). rewrite (bind_raise _ _ _ _ _ Hfetch). done.
  - rewrite (bind_ok _ _ _ _ _ Hname). rewrite (bind_raise _ _ _ _ _ Hfetch). done.
Qed.

End Loader.

(** C1: when no source file named after the application exists,
    [fetchAppModuleClass] returns the class [AppModule] and raises nothing;
    when the file exists and fails to load, it logs the error, speaks the
    error message and raises [RuntimeError]; and a lookup that misses the
    cache lets that exception through, with nothing bound for the process
    (the registry and the instances are as before). *)
Theorem fetchAppModuleClass_default_or_error W appName s :
  (isfile W (modulePath appName) = false ->
     fetchAppModuleClass W appName s
     = (Ok (PyClassObj AppModule),
        emitted s [ev_log DEBUG (msg_moduleExists appName false)])) /\
  (isfile W (modulePath appName) = true ->
   import_module W appName = ImportRaises ->
     fetchAppModuleClass W appName s
     = (Raise (RuntimeError ""),
        emitted s [ev_log DEBUG (msg_moduleExists appName true);
                   ev_import appName;
                   ev_log ERROR (msg_errorInAppModule appName);
                   ev_speakMessage ("Error in appModule " +:+ appName)]) /\
     forall pid s0,
       (forall r, runningTable s0 !! pid <> Some (Some r)) ->
       fst (getAppNameFromProcessID W (PInt pid) false s0) = Ok appName ->
       let out := getAppModuleFromProcessID W pid s0 in
       fst out = Raise (RuntimeError "") /\
       runningTable (snd out) = runningTable s0 /\
       heap (snd out) = heap s0).
Proof.
  split; [apply fetchAppModuleClass_absent|].
  intros Hyes Himp. split; [apply fetchAppModuleClass_broken; auto|].
  intros pid s0 Hmiss Hname out.
  destruct (getAppNameFromProcessID_total W (PInt pid) false s0) as (name & evs & Hn).
  rewrite Hn in Hname. simpl in Hname. injection Hname as ->.
  subst out.
  rewrite (getAppModuleFromProcessID_fetch_raises W pid s0 appName _ _ _ Hmiss Hn
             (fetchAppModuleClass_broken W appName _ Hyes (or_introl Himp))).
  done.
Qed.

Lemma fetchAppModuleClass_default_or_error_witness :
  fetchAppModuleClass demoWorld "notepad" s_started
  = (Ok (PyClassObj AppModule),
     emitted s_started [ev_log DEBUG (msg_moduleExists "notepad" false)]) /\
  fst (getAppModuleFromProcessID demoWorld 88 s_started) = Raise (RuntimeError "") /\
  runningTable (snd (getAppModuleFromProcessID demoWorld 88 s_started)) = ∅.
Proof.
  split.
  - apply (proj1 (fetchAppModuleClass_default_or_error demoWorld "notepad" s_started)).
    reflexivity.
  - pose proof (proj2 (fetchAppModuleClass_default_or_error demoWorld "broken" s_started)
                  eq_refl eq_refl) as [_ Hcaller].
    specialize (Hcaller 88 s_started).
    destruct Hcaller as (Hres & Htab & _).
    + intros r. unfold s_started; simpl. rewrite lookup_empty. discriminate.
    + reflexivity.
    + split; [exact Hres | exact Htab].
Defined.

(** C3 (as amended): when the source file exists and loads with its
    [AppModule] bound to [None], [fetchAppModuleClass] returns the class
    [AppModule] and raises nothing; when the file loads and does not define
    [AppModule] at all, the failed attribute access is handled as any other
    load failure: logged, spoken, [RuntimeError]. *)
Theorem fetchAppModuleClass_exported_symbol W appName s :
  isfile W (modulePath appName) = true ->
  (import_module W appName = ImportedWith PyNone ->
     fetchAppModuleClass W appName s
     = (Ok (PyClassObj AppModule),
        emitted s [ev_log DEBUG (msg_moduleExists appName true); ev_import appName])) /\
  (import_module W appName = ImportedWithout ->
     fetchAppModuleClass W appName s
     = (Raise (RuntimeError ""),
        emitted s [ev_log DEBUG (msg_moduleExists appName true);
                   ev_import appName;
                   ev_log ERROR (msg_errorInAppModule appName);
                   ev_speakMessage ("Error in appModule " +:+ appName)])).
Proof.
  intros Hyes. split; intros Himp.
  - by rewrite (fetchAppModuleClass_loaded W appName PyNone s Hyes Himp).
  - apply fetchAppModuleClass_broken; auto.
Qed.

Lemma fetchAppModuleClass_exported_symbol_witness :
  fetchAppModuleClass demoWorld "nosymbol" s_started
  = (Raise (RuntimeError ""),
     emitted s_started [ev_log DEBUG (msg_moduleExists "nosymbol" true);
                        ev_import "nosymbol";
                        ev_log ERROR (msg_errorInAppModule "nosymbol");
                        ev_speakMessage "Error in appModule nosymbol"]).
Proof.
  apply (proj2 (fetchAppModuleClass_exported_symbol demoWorld "nosymbol" s_started eq_refl)).
  reflexivity.
Defined.

(** C3 (as stated) fails: [nosymbol.py] exists and loads, defines no
    [AppModule], and the call raises instead of returning the class
    [AppModule]. *)
Lemma fetchAppModuleClass_missing_symbol_raises :
  isfile demoWorld (modulePath "nosymbol") = true /\
  import_module demoWorld "nosymbol" = ImportedWithout /\
  fst (fetchAppModuleClass demoWorld "nosymbol" s_started) = Raise (RuntimeError "") /\
  fst (fetchAppModuleClass demoWorld "nosymbol" s_started) <> Ok (PyClassObj AppModule).
Proof. repeat split; discriminate. Qed.

(** ** Key map files *)

Lemma only_mutates_refl amod s : only_mutates amod s s.
Proof. by repeat split. Qed.

Lemma only_mutates_trans amod s1 s2 s3 :
  only_mutates amod s1 s2 -> only_mutates amod s2 s3 -> only_mutates amod s1 s3.
Proof.
  intros (Ht & Hd & Hn & Hx & Hh & Hv) (Ht' & Hd' & Hn' & Hx' & Hh' & Hv').
  repeat split; try congruence; [|auto].
  intros r Hr. rewrite Hh' by done. auto.
Qed.

Lemma only_mutates_emitted amod s evs : only_mutates amod s (emitted s evs).
Proof. by repeat split. Qed.

Lemma only_mutates_stored amod s o : only_mutates amod s (stored s amod o).
Proof.
  repeat split; simpl.
  - intros r Hr. by rewrite lookup_insert_ne.
  - intros _. rewrite lookup_insert_eq. eauto.
Qed.

Lemma stored_emitted s r o evs : stored (emitted s evs) r o = emitted (stored s r o) evs.
Proof. reflexivity. Qed.

Section KeyMap.

Variable W : World.

Lemma getKeyMapFileName_requested appName layout s :
  isfile W (keyMapPath appName layout) = true ->
  getKeyMapFileName W appName layout s
  = (Ok (Some (keyMapPath appName layout)),
     emitted s [ev_log DEBUG (msg_foundKeymap appName (keyMapPath appName layout))]).
Proof.
  intros Hf. unfold getKeyMapFileName; simpl. rewrite Hf. reflexivity.
Qed.

Lemma getKeyMapFileName_fallback appName layout s :
  isfile W (keyMapPath appName layout) = false ->
  layout <> "desktop" ->
  isfile W (keyMapPath appName "desktop") = true ->
  getKeyMapFileName W appName layout s
  = (Ok (Some (keyMapPath appName "desktop")),
     emitted s [ev_log DEBUG (msg_foundKeymap appName (keyMapPath appName "desktop"))]).
Proof.
  intros Hf Hl Hd. unfold getKeyMapFileName; simpl. rewrite Hf.
  destruct (String.eqb_spec layout "desktop") as [|_]; [done|]. simpl.
  rewrite Hd. reflexivity.
Qed.

Lemma getKeyMapFileName_none appName layout s :
  isfile W (keyMapPath appName layout) = false ->
  isfile W (keyMapPath appName "desktop") = false ->
  getKeyMapFileName W appName layout s
  = (Ok None, emitted s [ev_log DEBUG (msg_noKeymap appName)]).
Proof.
  intros Hf Hd. unfold getKeyMapFileName; simpl. rewrite Hf.
  destruct (String.eqb_spec layout "desktop") as [->|_]; simpl; [done|].
  rewrite Hd. reflexivity.
Qed.

(** Two nested calls are all [getKeyMapFileName] ever makes. *)
Lemma getKeyMapFileName_depth depth appName layout s :
  (2 <= depth)%nat ->
  getKeyMapFileName_rec W depth appName layout s = getKeyMapFileName W appName layout s.
Proof.
  intros Hd. destruct depth as [|[|d]]; [lia | lia |]. clear Hd.
  unfold getKeyMapFileName. simpl.
  destruct (isfile W (keyMapPath appName layout)); [done|].
  destruct (String.eqb layout "desktop"); simpl; [done|].
  destruct (isfile W (keyMapPath appName "desktop")); done.
Qed.

Lemma getKeyMapFileName_frame appName layout s :
  exists res evs, getKeyMapFileName W appName layout s = (Ok res, emitted s evs) /\
    (res = None <->
     isfile W (keyMapPath appName layout) = false /\
     isfile W (keyMapPath appName "desktop") = false).
Proof.
  destruct (isfile W (keyMapPath appName layout)) eqn:Hf.
  - eexists _, _. split; [by apply getKeyMapFileName_requested|].
    split; [discriminate | intros [? _]; discriminate].
  - destruct (isfile W (keyMapPath appName "desktop")) eqn:Hd.
    + destruct (String.eqb_spec layout "desktop") as [->|Hl]; [congruence|].
      eexists _, _. split; [by apply getKeyMapFileName_fallback|].
      split; [discriminate | intros [_ ?]; discriminate].
    + eexists _, _. split; [by apply getKeyMapFileName_none | done].
Qed.

(** The loop over the lines of a key map file always runs to its end. *)
Lemma bindLines_total appName amod lines : forall bindCount s,
  is_Some (heap s !! amod) ->
  exists n s', bindLines W appName amod lines bindCount s = (Ok n, s') /\
               only_mutates amod s s' /\
               (bindCount <= n <= bindCount + length lines)%nat.
Proof.
  induction lines as [|line rest IH]; intros bindCount s [o Ho].
  - exists bindCount, s. simpl. split; [done|]. split; [apply only_mutates_refl | lia].
  - simpl. destruct (Re.rmatch re_keyScript line) as [m|].
    + rewrite (bind_ok _ _ _ _ _ (deref_ok _ _ _ Ho)).
      rewrite (bind_ok _ _ _ _ _ (emit_eq _ _)).
      set (r := bindKey_runtime W o (Re.group m "key") (Re.group m "script")).
      rewrite (bind_ok _ _ _ _ _ (store_eq _ _ _)).
      set (s1 := stored _ amod (fst r)).
      assert (Hs1 : only_mutates amod s s1).
      { eapply only_mutates_trans; [apply only_mutates_emitted | apply only_mutates_stored]. }
      destruct (snd r).
      * destruct (IH (S bindCount) s1) as (n & s' & Hrun & Hfr & Hn).
        { apply Hs1. eauto. }
        exists n, s'. split; [done|].
        split; [eapply only_mutates_trans; eauto | simpl; lia].
      * rewrite (bind_ok _ _ _ _ _ (log_eq _ _ _)).
        set (s2 := emitted s1 _).
        assert (Hs2 : only_mutates amod s s2).
        { eapply only_mutates_trans; [exact Hs1 | apply only_mutates_emitted]. }
        destruct (IH bindCount s2) as (n & s' & Hrun & Hfr & Hn).
        { apply Hs2. eauto. }
        exists n, s'. split; [done|].
        split; [eapply only_mutates_trans; eauto | simpl; lia].
    + destruct (IH bindCount s) as (n & s' & Hrun & Hfr & Hn); [eauto|].
      exists n, s'. split; [done|]. split; [done | simpl; lia].
Qed.

(** A line the pattern does not match changes nothing: the loop goes on
    with the next line, in the same state, trace included. *)
Lemma bindLines_skips appName amod line before after :
  Re.rmatch re_keyScript line = None ->
  forall bindCount s,
    bindLines W appName amod (before ++ line :: after) bindCount s
    = bindLines W appName amod (before ++ after) bindCount s.
Proof.
  intros Hno. induction before as [|l rest IH]; intros bindCount s; simpl.
  - by rewrite Hno.
  - destruct (Re.rmatch re_keyScript l) as [m|]; [|apply IH].
    monad_simpl. destruct (heap s !! amod) as [o|]; [|done].
    destruct (snd (bindKey_runtime W o (Re.group m "key") (Re.group m "script")));
      apply IH.
Qed.

(** A line the pattern matches and whose binding raises is logged as an
    error; the loop goes on with the next line and the same count. *)
Lemma bindLines_bind_error appName amod line m rest bindCount s o :
  Re.rmatch re_keyScript line = Some m ->
  heap s !! amod = Some o ->
  snd (bindKey_runtime W o (Re.group m "key") (Re.group m "script")) = false ->
  bindLines W appName amod (line :: rest) bindCount s
  = bindLines W appName amod rest bindCount
      (emitted
         (stored s amod (fst (bindKey_runtime W o (Re.group m "key") (Re.group m "script"))))
         [ev_bindKey_runtime amod (Re.group m "key") (Re.group m "script");
          ev_log ERROR (msg_errorBinding (Re.group m "script") (Re.group m "key") appName)]).
Proof.
  intros Hm Ho Hfail. simpl. rewrite Hm.
  rewrite (bind_ok _ _ _ _ _ (deref_ok _ _ _ Ho)).
  rewrite (bind_ok _ _ _ _ _ (emit_eq _ _)).
  rewrite (bind_ok _ _ _ _ _ (store_eq _ _ _)).
  rewrite Hfail, (bind_ok _ _ _ _ _ (log_eq _ _ _)).
  by rewrite stored_emitted, emitted_emitted.
Qed.

Lemma loadKeyMap_no_file appName amod s :
  isfile W (keyMapPath appName (keyboardLayout W)) = false ->
  isfile W (keyMapPath appName "desktop") = false ->
  loadKeyMap W appName amod s
  = (Ok false, emitted s [ev_log DEBUG (msg_noKeymap appName)]).
Proof.
  intros Hf Hd. unfold loadKeyMap.
  by rewrite (bind_ok _ _ _ _ _ (getKeyMapFileName_none appName _ s Hf Hd)).
Qed.

(** With a file found, [loadKeyMap] returns [True], whatever its lines. *)
Lemma loadKeyMap_found appName amod s fname s1 :
  is_Some (heap s !! amod) ->
  getKeyMapFileName W appName (keyboardLayout W) s = (Ok (Some fname), s1) ->
  exists s', loadKeyMap W appName amod s = (Ok true, s') /\ only_mutates amod s s'.
Proof.
  intros [o Ho] Hname.
  destruct (getKeyMapFileName_frame appName (keyboardLayout W) s)
    as (res & evs & Hfr & _).
  rewrite Hname in Hfr. injection Hfr as <- ->.
  unfold loadKeyMap. rewrite (bind_ok _ _ _ _ _ Hname).
  rewrite (bind_ok _ _ _ _ _ (emit_eq _ _)).
  set (s2 := emitted (emitted s evs) _).
  assert (Hs2 : only_mutates amod s s2).
  { eapply only_mutates_trans; apply only_mutates_emitted. }
  assert (Ho2 : heap s2 !! amod = Some o) by done.
  rewrite (bind_ok _ _ _ _ _ (deref_ok _ _ _ Ho2)).
  assert (Hclear : exists s3,
            match Obj._keyMap o with
            | Some _ =>
                store amod (Obj.mk (Obj.cls o) (Obj.processID o) (Obj.appName o)
                                   (Obj.processHandle o) (Some ∅))
            | None => ret tt
            end s2 = (Ok tt, s3) /\ only_mutates amod s2 s3).
  { destruct (Obj._keyMap o); eexists; (split; [reflexivity|]).
    - apply only_mutates_stored.
    - apply only_mutates_refl. }
  destruct Hclear as (s3 & Hclear & Hs3).
  rewrite (bind_ok _ _ _ _ _ Hclear).
  destruct (bindLines_total appName amod (keyMapLines W fname) 0%nat s3)
    as (n & s' & Hrun & Hmut & _); [apply Hs3, Hs2; eauto|].
  rewrite (bind_ok _ _ _ _ _ Hrun), (bind_ok _ _ _ _ _ (log_eq _ _ _)).
  eexists. split; [done|].
  eapply only_mutates_trans; [exact Hs2|].
  eapply only_mutates_trans; [exact Hs3|].
  eapply only_mutates_trans; [exact Hmut|]. apply only_mutates_emitted.
Qed.

(** [False] comes from the missing file and from nowhere else. *)
Lemma loadKeyMap_false_inv appName amod s :
  fst (loadKeyMap W appName amod s) = Ok false ->
  isfile W (keyMapPath appName (keyboardLayout W)) = false /\
  isfile W (keyMapPath appName "desktop") = false.
Proof.
  destruct (getKeyMapFileName_frame appName (keyboardLayout W) s)
    as (res & evs & Hname & Hnone).
  destruct res as [fname|]; [|intros _; by apply Hnone].
  destruct (heap s !! amod) as [o|] eqn:Ho.
  - destruct (loadKeyMap_found appName amod s fname _ (ltac:(eauto)) Hname)
      as (s' & -> & _).
    discriminate.
  - unfold loadKeyMap. rewrite (bind_ok _ _ _ _ _ Hname).
    monad_simpl. rewrite Ho. discriminate.
Qed.

End KeyMap.

(** C6: the key map file looked for first is the one named after the
    application and the requested layout; when it is absent and the layout
    is not desktop, the desktop one is taken; when that is absent too, no
    file name results, and [loadKeyMap] returns [False] having opened no
    file and bound nothing (only the debug message is added to the trace). *)
Theorem getKeyMapFileName_layout_fallback W appName layout s :
  (isfile W (keyMapPath appName layout) = true ->
     fst (getKeyMapFileName W appName layout s) = Ok (Some (keyMapPath appName layout))) /\
  (isfile W (keyMapPath appName layout) = false ->
   layout <> "desktop" ->
   isfile W (keyMapPath appName "desktop") = true ->
     fst (getKeyMapFileName W appName layout s) = Ok (Some (keyMapPath appName "desktop"))) /\
  (isfile W (keyMapPath appName layout) = false ->
   isfile W (keyMapPath appName "desktop") = false ->
     fst (getKeyMapFileName W appName layout s) = Ok None /\
     (layout = keyboardLayout W ->
      forall amod,
        loadKeyMap W appName amod s
        = (Ok false, emitted s [ev_log DEBUG (msg_noKeymap appName)]))).
Proof.
  split; [|split].
  - intros Hf. by rewrite getKeyMapFileName_requested.
  - intros Hf Hl Hd. by rewrite getKeyMapFileName_fallback.
  - intros Hf Hd. split; [by rewrite getKeyMapFileName_none|].
    intros -> amod. by apply loadKeyMap_no_file.
Qed.

Lemma getKeyMapFileName_layout_fallback_witness :
  fst (getKeyMapFileName demoWorld "bogus" "laptop" s_word)
  = Ok (Some "appModules/bogus_laptop.kbd") /\
  fst (getKeyMapFileName demoWorld "winword" "laptop" s_word)
  = Ok (Some "appModules/winword_desktop.kbd") /\
  fst (getKeyMapFileName demoWorld "notepad" "laptop" s_word) = Ok None /\
  loadKeyMap demoWorld "notepad" 0%nat s_word
  = (Ok false, emitted s_word [ev_log DEBUG (msg_noKeymap "notepad")]).
Proof.
  split; [|split].
  - apply (proj1 (getKeyMapFileName_layout_fallback demoWorld "bogus" "laptop" s_word)).
    reflexivity.
  - apply (proj1 (proj2 (getKeyMapFileName_layout_fallback demoWorld "winword" "laptop"
                           s_word))); [reflexivity | discriminate | reflexivity].
  - destruct (proj2 (proj2 (getKeyMapFileName_layout_fallback demoWorld "notepad" "laptop"
                              s_word)) eq_refl eq_refl) as [Hnone Hload].
    split; [exact Hnone | exact (Hload eq_refl 0%nat)].
Defined.

(** C7 (as amended): [loadKeyMap] returns [True] whenever a key map file
    was found, whatever its lines; it returns [False] only when none was
    found; a line the pattern does not match is skipped without any log
    entry and the loop goes on with the lines after it; a line the pattern
    matches and whose binding raises is logged as an error and the loop goes
    on as well. *)
Theorem loadKeyMap_found_returns_true W appName amod s :
  (forall fname,
     is_Some (heap s !! amod) ->
     fst (getKeyMapFileName W appName (keyboardLayout W) s) = Ok (Some fname) ->
     fst (loadKeyMap W appName amod s) = Ok true) /\
  (fst (loadKeyMap W appName amod s) = Ok false ->
   fst (getKeyMapFileName W appName (keyboardLayout W) s) = Ok None) /\
  (forall line before after bindCount s',
     Re.rmatch re_keyScript line = None ->
     bindLines W appName amod (before ++ line :: after) bindCount s'
     = bindLines W appName amod (before ++ after) bindCount s') /\
  (forall line m rest bindCount s' o,
     Re.rmatch re_keyScript line = Some m ->
     heap s' !! amod = Some o ->
     snd (bindKey_runtime W o (Re.group m "key") (Re.group m "script")) = false ->
     bindLines W appName amod (line :: rest) bindCount s'
     = bindLines W appName amod rest bindCount
         (emitted
            (stored s' amod
               (fst (bindKey_runtime W o (Re.group m "key") (Re.group m "script"))))
            [ev_bindKey_runtime amod (Re.group m "key") (Re.group m "script");
             ev_log ERROR
               (msg_errorBinding (Re.group m "script") (Re.group m "key") appName)])).
Proof.
  split; [|split; [|split]].
  - intros fname Hv Hname.
    destruct (getKeyMapFileName W appName (keyboardLayout W) s) as [res s1] eqn:Hk.
    simpl in Hname. subst res.
    destruct (loadKeyMap_found W appName amod s fname s1 Hv Hk) as (s' & -> & _). done.
  - intros Hfalse. apply loadKeyMap_false_inv in Hfalse as [Hf Hd].
    by rewrite getKeyMapFileName_none.
  - intros line before after bindCount s' Hno. by apply bindLines_skips.
  - intros line m rest bindCount s' o Hm Ho Hfail. by apply bindLines_bind_error.
Qed.

Lemma loadKeyMap_found_returns_true_witness :
  fst (loadKeyMap demoWorld "bogus" 0%nat s_word) = Ok true /\
  bindLines demoWorld "winword" 0%nat
    ([ "ctrl+a = doSomething" ] ++ "bogusline" :: [ "ctrl+t=sayTitle" ]) 0 s_word
  = bindLines demoWorld "winword" 0%nat
      ([ "ctrl+a = doSomething" ] ++ [ "ctrl+t=sayTitle" ]) 0 s_word.
Proof.
  pose proof (loadKeyMap_found_returns_true demoWorld "bogus" 0%nat s_word)
    as (Htrue & _ & _ & _).
  pose proof (loadKeyMap_found_returns_true demoWorld "winword" 0%nat s_word)
    as (_ & _ & Hskip & _).
  split.
  - apply (Htrue "appModules/bogus_laptop.kbd"); [|reflexivity].
    unfold s_word; simpl. rewrite lookup_singleton_eq. eauto.
  - apply Hskip. reflexivity.
Defined.

(** C7 (as stated) fails: the key map file of [bogus] holds the one line
    [bogusline], which the pattern does not match; [loadKeyMap] returns
    [True] and all it logs are the two debug messages it logs for any file,
    an empty one included. *)
Lemma loadKeyMap_bogusline_not_logged :
  keyMapLines demoWorld "appModules/bogus_laptop.kbd" = [ "bogusline" +:+ PyStr.nl ] /\
  Re.rmatch re_keyScript ("bogusline" +:+ PyStr.nl) = None /\
  fst (loadKeyMap demoWorld "bogus" 0%nat s_word) = Ok true /\
  trace (snd (loadKeyMap demoWorld "bogus" 0%nat s_word))
  = [ ev_log DEBUG (msg_foundKeymap "bogus" "appModules/bogus_laptop.kbd");
      ev_open "appModules/bogus_laptop.kbd";
      ev_log DEBUG (msg_addedBindings 0 "bogus" "appModules/bogus_laptop.kbd") ] /\
  trace (snd (loadKeyMap demoWorld "bogus" 0%nat s_word))
  = trace (snd (loadKeyMap demoWorld_empty_files "bogus" 0%nat s_word)).
Proof. repeat split; vm_compute; reflexivity. Qed.

(** C10: when there is no key map file, neither for the configured layout
    nor for desktop, [loadKeyMap] returns [False]; and whenever it returns
    [False], every instance, the given one with its key map included, is as
    it was: the state differs by one debug message in the trace. A changed
    instance means that a file had been found. *)
Theorem loadKeyMap_false_changes_nothing W appName amod s :
  (isfile W (keyMapPath appName (keyboardLayout W)) = false ->
   isfile W (keyMapPath appName "desktop") = false ->
     fst (loadKeyMap W appName amod s) = Ok false) /\
  (fst (loadKeyMap W appName amod s) = Ok false ->
     heap (snd (loadKeyMap W appName amod s)) = heap s /\
     snd (loadKeyMap W appName amod s) = emitted s [ev_log DEBUG (msg_noKeymap appName)]) /\
  (heap (snd (loadKeyMap W appName amod s)) !! amod <> heap s !! amod ->
     exists fname,
       fst (getKeyMapFileName W appName (keyboardLayout W) s) = Ok (Some fname)).
Proof.
  split; [|split].
  - intros Hf Hd. by rewrite loadKeyMap_no_file.
  - intros Hfalse. apply loadKeyMap_false_inv in Hfalse as [Hf Hd].
    by rewrite loadKeyMap_no_file.
  - intros Hchanged.
    destruct (getKeyMapFileName_frame W appName (keyboardLayout W) s)
      as (res & evs & Hname & Hnone).
    destruct res as [fname|]; [exists fname; by rewrite Hname|].
    destruct (proj1 Hnone eq_refl) as [Hf Hd].
    rewrite loadKeyMap_no_file in Hchanged by done. by destruct Hchanged.
Qed.

Lemma loadKeyMap_false_changes_nothing_witness :
  fst (loadKeyMap demoWorld "notepad" 0%nat s_word) = Ok false /\
  heap (snd (loadKeyMap demoWorld "notepad" 0%nat s_word)) = heap s_word.
Proof.
  pose proof (loadKeyMap_false_changes_nothing demoWorld "notepad" 0%nat s_word)
    as (Hfalse & Hsame & _).
  split.
  - apply Hfalse; reflexivity.
  - apply Hsame. apply Hfalse; reflexivity.
Defined.

(** ** The running registry *)

Section Registry.

Variable W : World.

Lemma loadKeyMap_total appName amod s :
  is_Some (heap s !! amod) ->
  exists b s', loadKeyMap W appName amod s = (Ok b, s') /\ only_mutates amod s s'.
Proof.
  intros Hv.
  destruct (getKeyMapFileName_frame W appName (keyboardLayout W) s)
    as (res & evs & Hname & Hnone).
  destruct res as [fname|].
  - destruct (loadKeyMap_found W appName amod s fname _ Hv Hname) as (s' & Hl & Hm).
    eauto.
  - destruct (proj1 Hnone eq_refl) as [Hf Hd].
    rewrite loadKeyMap_no_file by done.
    eexists _, _. split; [done | apply only_mutates_emitted].
Qed.

Lemma instantiate_class c processID appName s :
  instantiate W (PyClassObj c) processID (Some appName) s
  = (Ok (next_ref s),
     allocated (emitted s [ev_openProcess processID])
               (Obj.mk c processID appName (openProcess W processID) None)).
Proof. reflexivity. Qed.

(** A cache hit: the cached instance, and not a single step more. *)
Lemma getAppModuleFromProcessID_hit pid r s :
  runningTable s !! pid = Some (Some r) ->
  getAppModuleFromProcessID W pid s = (Ok (Some r), s).
Proof.
  intros Hhit. unfold getAppModuleFromProcessID.
  unfold bind at 1. unfold get at 1. by rewrite Hhit.
Qed.

(** A cache miss ends in an exception with the registry and the instances
    as they were, or with [processID] bound to what is returned. *)
Lemma lookup_frame_emitted pid s evs : lookup_frame pid s (emitted s evs).
Proof. split; [done|]. split; [done|]. intros k. by left. Qed.

Lemma getAppModuleFromProcessID_miss pid s :
  (forall r, runningTable s !! pid <> Some (Some r)) ->
  exists res s',
    getAppModuleFromProcessID W pid s = (res, s') /\
    lookup_frame pid s s' /\
    ((exists e, res = Raise e /\ runningTable s' = runningTable s /\ heap s' = heap s) \/
     (exists amod, res = Ok amod /\ runningTable s' = <[pid := amod]> (runningTable s))).
Proof.
  intros Hmiss.
  destruct (getAppNameFromProcessID_total W (PInt pid) false s) as (name & evs & Hname).
  destruct (fetchAppModuleClass_frame W name (emitted s evs)) as (res & evs2 & Hfetch & Hnn).
  assert (Hbody :
    exists res s',
      (appName <- getAppNameFromProcessID W (PInt pid) false ;;
       modClass <- fetchAppModuleClass W appName ;;
       amod <- (if truthy modClass then
                 r <- instantiate W modClass (PInt pid) (Some (PStr appName)) ;;
                 o <- deref r ;;
                 (if negb (match modClass with
                           | PyClassObj c => pyclass_eqb c AppModule
                           | _ => false
                           end)
                  then log INFO (msg_loadedAppModule (Obj.appName o))
                  else ret tt) ;;
                 loadKeyMap W (py_str (Obj.appName o)) r ;;
                 ret (Some r)
               else ret None) ;;
       s' <- get ;;
       set_runningTable (<[pid := amod]> (runningTable s')) ;;
       ret amod) s = (res, s') /\
      lookup_frame pid s s' /\
      ((exists e, res = Raise e /\ runningTable s' = runningTable s /\ heap s' = heap s) \/
       (exists amod, res = Ok amod /\ runningTable s' = <[pid := amod]> (runningTable s)))).
  { rewrite (bind_ok _ _ _ _ _ Hname).
    destruct res as [modClass|e].
    2:{ rewrite (bind_raise _ _ _ _ _ Hfetch). eexists _, _. split; [done|].
        split; [rewrite emitted_emitted; apply lookup_frame_emitted|]. left. eauto. }
    rewrite (bind_ok _ _ _ _ _ Hfetch).
    destruct modClass as [|c|]; [done| |].
    - simpl truthy. cbv iota.
      set (s2 := emitted (emitted s evs) evs2).
      rewrite bind_assoc, (bind_ok _ _ _ _ _ (instantiate_class c _ _ s2)).
      set (o := Obj.mk c (PInt pid) (PStr name) (openProcess W (PInt pid)) None).
      set (s3 := allocated _ o).
      assert (Ho : heap s3 !! next_ref s2 = Some o) by apply lookup_insert_eq.
      rewrite bind_assoc, (bind_ok _ _ _ _ _ (deref_ok _ _ _ Ho)).
      rewrite bind_assoc.
      assert (Hlog : exists s4,
                (if negb (pyclass_eqb c AppModule)
                 then log INFO (msg_loadedAppModule (Obj.appName o))
                 else ret tt) s3 = (Ok tt, s4) /\ only_mutates (next_ref s2) s3 s4).
      { destruct (negb (pyclass_eqb c AppModule)); eexists; (split; [reflexivity|]).
        - apply only_mutates_emitted.
        - apply only_mutates_refl. }
      destruct Hlog as (s4 & Hlog & Hm4).
      rewrite (bind_ok _ _ _ _ _ Hlog).
      destruct (loadKeyMap_total (py_str (Obj.appName o)) (next_ref s2) s4)
        as (b & s5 & Hload & Hm5); [apply Hm4; eauto|].
      rewrite bind_assoc, (bind_ok _ _ _ _ _ Hload).
      pose proof (only_mutates_trans _ _ _ _ Hm4 Hm5) as (Ht5 & _ & _ & Hn5 & Hh5 & _).
      eexists _, _. split; [reflexivity|].
      subst s3 s2. simpl in Ht5, Hn5, Hh5. simpl. split.
      + unfold lookup_frame; simpl. split; [rewrite Hn5; lia|]. split.
        * intros r Hr. rewrite Hh5 by lia. apply lookup_insert_ne. lia.
        * intros k. destruct (decide (k = pid)) as [->|Hne].
          -- right. split; [done|]. right. exists (next_ref s).
             split; [apply lookup_insert_eq | lia].
          -- left. rewrite lookup_insert_ne by done. by rewrite Ht5.
      + right. eexists. split; [reflexivity|]. by rewrite Ht5.
    - eexists _, _. split; [reflexivity|]. simpl. split.
      + split; [done|]. split; [done|]. intros k.
        destruct (decide (k = pid)) as [->|Hne].
        * right. split; [done|]. left. apply lookup_insert_eq.
        * left. by apply lookup_insert_ne.
      + right. eexists. split; [reflexivity|]. done. }
  destruct Hbody as (res' & s' & Hrun & Hout).
  exists res', s'. split; [|done].
  unfold getAppModuleFromProcessID. unfold bind at 1. unfold get at 1.
  destruct (runningTable s !! pid) as [[r|]|] eqn:Ht; [by destruct (Hmiss r) | done | done].
Qed.

Lemma getAppModuleFromProcessID_frame pid s :
  lookup_frame pid s (snd (getAppModuleFromProcessID W pid s)).
Proof.
  destruct (runningTable s !! pid) as [[r|]|] eqn:Ht.
  - rewrite (getAppModuleFromProcessID_hit pid r s Ht). simpl.
    rewrite <- (emitted_nil s) at 2. apply lookup_frame_emitted.
  - destruct (getAppModuleFromProcessID_miss pid s) as (res & s' & -> & Hfr & _);
      [intros r; rewrite Ht; discriminate | done].
  - destruct (getAppModuleFromProcessID_miss pid s) as (res & s' & -> & Hfr & _);
      [intros r; rewrite Ht; discriminate | done].
Qed.

End Registry.

(** C5: for a process ID whose instance is cached, [getAppModuleFromProcessID]
    returns that very instance and leaves the state as it is, trace
    included: no handle is waited on, no name resolved, nothing imported or
    constructed. Lookups, of this or of any other process ID, returning or
    raising, never replace the entry: after any sequence of them the same
    instance is cached and returned. *)
Theorem getAppModuleFromProcessID_cached W pid r s :
  runningTable s !! pid = Some (Some r) ->
  getAppModuleFromProcessID W pid s = (Ok (Some r), s) /\
  forall pids,
    runningTable (lookups W pids s) !! pid = Some (Some r) /\
    getAppModuleFromProcessID W pid (lookups W pids s)
    = (Ok (Some r), lookups W pids s).
Proof.
  intros Hhit. split; [by apply getAppModuleFromProcessID_hit|].
  intros pids.
  assert (Hkeep : runningTable (lookups W pids s) !! pid = Some (Some r)).
  { revert s Hhit. induction pids as [|p rest IH]; intros s Hhit; [done|].
    simpl. apply IH.
    destruct (runningTable s !! p) as [[r'|]|] eqn:Hp.
    - by rewrite (getAppModuleFromProcessID_hit W p r' s Hp).
    - destruct (getAppModuleFromProcessID_miss W p s) as (res & s' & -> & _ & Hout);
        [intros r'; rewrite Hp; discriminate|].
      simpl. destruct Hout as [(e & _ & -> & _) | (amod & _ & ->)]; [done|].
      rewrite lookup_insert_ne; [done | congruence].
    - destruct (getAppModuleFromProcessID_miss W p s) as (res & s' & -> & _ & Hout);
        [intros r'; rewrite Hp; discriminate|].
      simpl. destruct Hout as [(e & _ & -> & _) | (amod & _ & ->)]; [done|].
      rewrite lookup_insert_ne; [done | congruence]. }
  split; [done | by apply getAppModuleFromProcessID_hit].
Qed.

Lemma getAppModuleFromProcessID_cached_witness :
  getAppModuleFromProcessID demoWorld 77 s_word = (Ok (Some 0%nat), s_word) /\
  runningTable (lookups demoWorld [42; 88; 77; 99] s_word) !! 77 = Some (Some 0%nat).
Proof.
  assert (Hhit : runningTable s_word !! 77 = Some (Some 0%nat)).
  { unfold s_word; simpl. apply lookup_singleton_eq. }
  destruct (getAppModuleFromProcessID_cached demoWorld 77 0%nat s_word Hhit) as [H1 H2].
  split; [exact H1 | exact (proj1 (H2 [42; 88; 77; 99]))].
Defined.

(** ** Eviction *)

Section Eviction.

Variable W : World.

Lemma isAlive_eq r o s :
  heap s !! r = Some o ->
  isAlive W r s
  = (Ok (negb (waitForSingleObject W (Obj.processHandle o) =? 0)),
     emitted s [ev_waitForSingleObject (Obj.processHandle o)]).
Proof.
  intros Ho. unfold isAlive. rewrite (bind_ok _ _ _ _ _ (deref_ok _ _ _ Ho)).
  reflexivity.
Qed.

(** With every cached instance alive the list of dead ones is empty, and
    computing it only polls the process handles. *)
Lemma deadMods_all_alive (values : list (option ref)) : forall s,
  (forall v, v ∈ values ->
     exists r o, v = Some r /\ heap s !! r = Some o /\
                 waitForSingleObject W (Obj.processHandle o) <> 0) ->
  exists evs,
    deadMods W values s = (Ok [], emitted s evs) /\
    Forall (fun e => exists h, e = ev_waitForSingleObject h) evs.
Proof.
  induction values as [|v rest IH]; intros s Hall.
  - exists []. rewrite emitted_nil. split; [done | constructor].
  - destruct (Hall v) as (r & o & -> & Ho & Halive); [apply elem_of_cons; auto|].
    simpl. rewrite (bind_ok _ _ _ _ _ (isAlive_eq r o s Ho)).
    destruct (IH (emitted s [ev_waitForSingleObject (Obj.processHandle o)]))
      as (evs & Hrest & Hevs).
    { intros v Hv. apply Hall. apply elem_of_cons; auto. }
    rewrite (bind_ok _ _ _ _ _ Hrest).
    apply Z.eqb_neq in Halive. rewrite Halive. simpl.
    exists (ev_waitForSingleObject (Obj.processHandle o) :: evs).
    rewrite emitted_emitted. split; [done|]. constructor; eauto.
Qed.

End Eviction.

Section EvictionLoop.
Variable W : World.

Lemma deref_inv r o s s' : deref r s = (Ok o, s') -> heap s !! r = Some o /\ s' = s.
Proof.
  unfold deref, bind, get. destruct (heap s !! r) as [o'|]; [|discriminate].
  unfold ret. intros H. by injection H as -> ->.
Qed.

Lemma deadMods_inv (values : list (option ref)) : forall s dead s1,
  deadMods W values s = (Ok dead, s1) ->
  (exists evs, s1 = emitted s evs) /\
  (forall r o, Some r ∈ values -> heap s !! r = Some o ->
               waitForSingleObject W (Obj.processHandle o) = 0 -> r ∈ dead).
Proof.
  induction values as [|v rest IH]; intros s dead s1 Hrun.
  - simpl in Hrun. injection Hrun as <- <-. split.
    + exists []. by rewrite emitted_nil.
    + intros r o Hin. by apply elem_of_nil in Hin.
  - destruct v as [r0|]; [|discriminate]. simpl in Hrun.
    apply bind_inv_ok in Hrun as (alive & sa & Halive & Hrun).
    apply bind_inv_ok in Hrun as (dead' & sb & Hrest & Hret).
    injection Hret as <- <-.
    unfold isAlive in Halive.
    apply bind_inv_ok in Halive as (o0 & s0 & Hd & Halive).
    apply deref_inv in Hd as [Ho0 ->].
    rewrite (bind_ok _ _ _ _ _ (emit_eq _ _)) in Halive. injection Halive as <- <-.
    destruct (IH _ _ _ Hrest) as ((evs & ->) & Hdead). split.
    + eexists. by rewrite emitted_emitted.
    + intros r o Hin Ho Hsig. apply elem_of_cons in Hin as [Heq | Hin].
      * injection Heq as ->. rewrite Ho0 in Ho. injection Ho as ->.
        rewrite Hsig. simpl. apply elem_of_cons. by left.
      * assert (Hr : r ∈ dead') by (eapply Hdead; eauto).
        destruct (negb _); [apply elem_of_cons; by right | done].
Qed.

(** One round of the loop of [update]: the entry of the dead instance is
    deleted, then the process ID is looked up. *)
Lemma update_body_inv pid d s s' :
  update_body W pid d s = (Ok tt, s') ->
  exists o k s1,
    heap s !! d = Some o /\ Obj.processID o = PInt k /\
    runningTable s1 = delete k (runningTable s) /\
    heap s1 = heap s /\ next_ref s1 = next_ref s /\
    s' = snd (getAppModuleFromProcessID W pid s1).
Proof.
  unfold update_body. intros Hrun.
  apply bind_inv_ok in Hrun as (o & s0 & Hd & Hrun).
  apply deref_inv in Hd as [Ho ->].
  rewrite (bind_ok _ _ _ _ _ (log_eq _ _ _)) in Hrun.
  apply bind_inv_ok in Hrun as ([] & sd & Hdel & Hrun).
  apply bind_inv_ok in Hrun as ([] & sf & Hfocus & Hrun).
  apply bind_inv_ok in Hrun as (amod & sl & Hlook & Hret).
  injection Hret as <-.
  unfold del_runningTable in Hdel. unfold bind at 1 in Hdel. unfold get at 1 in Hdel.
  destruct (Obj.processID o) as [k|] eqn:Hk; [|discriminate].
  simpl in Hdel.
  destruct (runningTable s !! k) as [v|]; [|discriminate].
  injection Hdel as <-.
  assert (Hsf : exists evs, sf = emitted
            (mkState (delete k (runningTable s)) (default s) (NVDAProcessID s) (heap s)
                     (next_ref s) (trace s ++ [ev_log DEBUG (msg_appClosed (Obj.appName o))]))
            evs).
  { destruct (inFocus W d); [destruct (has_event_appLoseFocus W (Obj.cls o))|].
    - rewrite emit_eq in Hfocus. injection Hfocus as <-. eauto.
    - injection Hfocus as <-. exists []. by rewrite emitted_nil.
    - injection Hfocus as <-. exists []. by rewrite emitted_nil. }
  destruct Hsf as (evs & ->).
  eexists o, k, _. split; [done|]. split; [done|].
  split; [|split; [|split; [|by rewrite Hlook]]]; done.
Qed.

Lemma update_body_heap pid d s s' (r : ref) :
  update_body W pid d s = (Ok tt, s') ->
  (r < next_ref s)%nat ->
  (r < next_ref s')%nat /\ heap s' !! r = heap s !! r.
Proof.
  intros Hrun Hr.
  apply update_body_inv in Hrun as (o & k0 & s1 & Ho & Hp & Ht1 & Hh1 & Hn1 & ->).
  destruct (getAppModuleFromProcessID_frame W pid s1) as (Hn & Hh & Ht).
  split; [lia|]. rewrite Hh by lia. by rewrite Hh1.
Qed.

Lemma update_body_keeps pid d s s' k (r : ref) :
  update_body W pid d s = (Ok tt, s') ->
  (r < next_ref s)%nat ->
  runningTable s !! k <> Some (Some r) ->
  runningTable s' !! k <> Some (Some r).
Proof.
  intros Hrun Hr Hk.
  apply update_body_inv in Hrun as (o & k0 & s1 & Ho & Hp & Ht1 & Hh1 & Hn1 & ->).
  destruct (getAppModuleFromProcessID_frame W pid s1) as (Hn & Hh & Ht).
  destruct (Ht k) as [Heq | (_ & [Heq | (r' & Heq & Hr')])]; rewrite Heq.
  - rewrite Ht1. destruct (decide (k0 = k)) as [->|Hne].
    + rewrite lookup_delete_eq. discriminate.
    + by rewrite lookup_delete_ne.
  - discriminate.
  - intros Hc. injection Hc as ->. lia.
Qed.

Lemma update_loop_keeps pid dead k (r : ref) : forall s s',
  forM_ dead (update_body W pid) s = (Ok tt, s') ->
  (r < next_ref s)%nat ->
  runningTable s !! k <> Some (Some r) ->
  runningTable s' !! k <> Some (Some r).
Proof.
  induction dead as [|d rest IH]; intros s s' Hrun Hr Hk.
  - simpl in Hrun. by injection Hrun as <-.
  - simpl in Hrun. apply bind_inv_ok in Hrun as ([] & s1 & Hbody & Hrest).
    destruct (update_body_heap _ _ _ _ r Hbody Hr) as (Hr1 & _).
    pose proof (update_body_keeps _ _ _ _ k r Hbody Hr Hk) as Hk1.
    eauto.
Qed.

Lemma update_loop_evicts pid dead : forall s s',
  forM_ dead (update_body W pid) s = (Ok tt, s') ->
  forall (d : ref) o k,
    d ∈ dead -> heap s !! d = Some o -> Obj.processID o = PInt k ->
    (d < next_ref s)%nat ->
    runningTable s' !! k <> Some (Some d).
Proof.
  induction dead as [|d0 rest IH]; intros s s' Hrun d o k Hin Ho Hp Hd.
  - by apply elem_of_nil in Hin.
  - simpl in Hrun. apply bind_inv_ok in Hrun as ([] & s1 & Hbody & Hrest).
    destruct (update_body_heap _ _ _ _ d Hbody Hd) as (Hd1 & Hh1).
    apply elem_of_cons in Hin as [-> | Hin].
    + eapply update_loop_keeps; [exact Hrest | exact Hd1 |].
      apply update_body_inv in Hbody
        as (o0 & k0 & s0 & Ho0 & Hp0 & Ht0 & Hh0 & Hn0 & ->).
      pose proof (eq_trans (eq_sym Ho) Ho0) as Hoo. injection Hoo as <-.
      pose proof (eq_trans (eq_sym Hp) Hp0) as Hkk. injection Hkk as <-.
      destruct (getAppModuleFromProcessID_frame W pid s0) as (Hn & Hh & Ht).
      destruct (Ht k) as [Heq | (_ & [Heq | (r' & Heq & Hr')])]; rewrite Heq.
      * rewrite Ht0, lookup_delete_eq. discriminate.
      * discriminate.
      * intros Hc. injection Hc as ->. lia.
    + eapply IH; [exact Hrest | exact Hin | exact (eq_trans Hh1 Ho) | exact Hp | exact Hd1].
Qed.

End EvictionLoop.

(** X12: what a call of [update] that returns has evicted: every entry
    whose instance was dead when the call began is gone (where the lookup
    bound the process ID again, it is to a new instance). *)
Lemma update_evicts_dead W pid s s' :
  update W pid s = (Ok tt, s') ->
  (forall r, is_Some (heap s !! r) -> (r < next_ref s)%nat) ->
  forall k r o,
    runningTable s !! k = Some (Some r) ->
    heap s !! r = Some o ->
    Obj.processID o = PInt k ->
    waitForSingleObject W (Obj.processHandle o) = 0 ->
    runningTable s' !! k <> Some (Some r).
Proof.
  intros Hrun Hfresh k r o Hk Ho Hp Hsig.
  unfold update in Hrun. unfold bind at 1 in Hrun. unfold get at 1 in Hrun.
  apply bind_inv_ok in Hrun as (dead & s1 & Hdead & Hloop).
  apply deadMods_inv in Hdead as ((evs & ->) & Hin).
  eapply (update_loop_evicts W pid dead _ _ Hloop r o k); [|done|done|].
  - eapply Hin; [|exact Ho|exact Hsig].
    apply list_elem_of_fmap. exists (k, Some r). split; [done|].
    by apply elem_of_map_to_list.
  - simpl. apply Hfresh. eauto.
Qed.


(** C4: what [update] does when no cached instance is dead. With every
    cached instance alive, [update] polls the process handles and returns:
    the state differs by those polls only; no name is resolved, no class
    fetched, and the process ID it was called for is bound to nothing it
    was not bound to before. The lookup is the last statement of the loop
    body, so it runs once per dead instance and not at all without one. *)
Theorem update_all_alive_no_lookup W processID s :
  (forall k v, runningTable s !! k = Some v ->
     exists r o, v = Some r /\ heap s !! r = Some o /\
                 waitForSingleObject W (Obj.processHandle o) <> 0) ->
  exists evs,
    update W processID s = (Ok tt, emitted s evs) /\
    Forall (fun e => exists h, e = ev_waitForSingleObject h) evs /\
    runningTable (snd (update W processID s)) !! processID = runningTable s !! processID.
Proof.
  intros Hall.
  destruct (deadMods_all_alive W ((map_to_list (runningTable s)).*2) s) as (evs & Hd & Hevs).
  { intros v Hv. apply list_elem_of_fmap in Hv as ([k v'] & -> & Hkv).
    apply elem_of_map_to_list in Hkv. eauto. }
  assert (Hupd : update W processID s = (Ok tt, emitted s evs)).
  { unfold update. unfold bind at 1. unfold get at 1.
    rewrite (bind_ok _ _ _ _ _ Hd). reflexivity. }
  exists evs. rewrite Hupd. done.
Qed.

Lemma update_all_alive_no_lookup_witness :
  exists evs,
    update demoWorld 88 s_word = (Ok tt, emitted s_word evs) /\
    Forall (fun e => exists h, e = ev_waitForSingleObject h) evs /\
    runningTable (snd (update demoWorld 88 s_word)) !! 88 = runningTable s_word !! 88.
Proof.
  apply (update_all_alive_no_lookup demoWorld 88 s_word).
  intros k v Hkv. unfold s_word in Hkv; simpl in Hkv.
  apply lookup_singleton_Some in Hkv as [_ <-].
  eexists 0%nat, _. split; [reflexivity|]. split; [apply lookup_singleton_eq|].
  simpl. discriminate.
Defined.

(** With nothing cached, [update 77] leaves process 77 unbound, where the
    lookup itself binds it. *)
Example update_nothing_cached :
  update demoWorld 77 s_started = (Ok tt, s_started) /\
  runningTable (snd (update demoWorld 77 s_started)) !! 77 = None /\
  runningTable (snd (getAppModuleFromProcessID demoWorld 77 s_started)) !! 77
  = Some (Some 0%nat).
Proof. repeat split; vm_compute; reflexivity. Qed.

(** With a dead instance cached, the entry goes and the lookup runs. *)
Example update_evicts_notepad :
  fst (update demoWorld 99 s_two) = Raise (RuntimeError "") /\
  fst (update demoWorld 77 s_two) = Ok tt /\
  runningTable (snd (update demoWorld 77 s_two)) = {[ 77 := Some 0%nat ]} /\
  runningTable (snd (update demoWorld 4 s_two)) = {[ 4 := Some 2%nat; 77 := Some 0%nat ]}.
Proof. repeat split; vm_compute; reflexivity. Qed.

(** The lookup inside the loop can end the loop: with two dead instances
    cached and a broken extension for the process looked up, the exception
    leaves one dead entry behind. *)
Example update_raise_leaves_dead_entry :
  fst (update demoWorld 88 s_two_dead) = Raise (RuntimeError "") /\
  size (runningTable (snd (update demoWorld 88 s_two_dead))) = 1%nat.
Proof. split; vm_compute; reflexivity. Qed.

(** ** Start-up *)

Section Startup.

Variable W : World.

Lemma initialize_default_broken s :
  isfile W (modulePath "_default") = true ->
  import_module W "_default" = ImportRaises \/ import_module W "_default" = ImportedWithout ->
  exists s',
    initialize W s = (Raise (RuntimeError ""), s') /\
    default s' = default s /\
    ev_speakMessage "Error in appModule _default" ∈ trace s'.
Proof.
  intros Hyes Hfail. unfold initialize.
  unfold bind at 1. unfold set_NVDAProcessID, modify.
  set (s1 := mkState _ _ _ _ _ _).
  rewrite (bind_raise _ _ _ _ _ (fetchAppModuleClass_broken W "_default" s1 Hyes Hfail)).
  eexists. split; [reflexivity|]. split; [done|].
  simpl. apply elem_of_app. right. repeat constructor.
Qed.

Lemma initialize_no_keyMap s :
  isfile W (modulePath "_default") = false \/
  (exists c, import_module W "_default" = ImportedWith (PyClassObj c)) \/
  import_module W "_default" = ImportedWith PyNone ->
  isfile W (keyMapPath "_default" (keyboardLayout W)) = false ->
  isfile W (keyMapPath "_default" "desktop") = false ->
  exists s',
    initialize W s
    = (Raise (RuntimeError "appModuleHandler.initialize: could not load default module keymap"),
       s') /\
    ev_speakMessage "Could not load default module keyMap" ∈ trace s'.
Proof.
  intros Hcls Hf Hd. unfold initialize.
  unfold bind at 1. unfold set_NVDAProcessID, modify.
  set (s1 := mkState _ _ _ _ _ _).
  assert (Hfetch : exists c evs,
            fetchAppModuleClass W "_default" s1 = (Ok (PyClassObj c), emitted s1 evs)).
  { destruct (isfile W (modulePath "_default")) eqn:Hm.
    - destruct Hcls as [? | [[c Hc] | Hn]]; [done | |].
      + eexists _, _. by rewrite (fetchAppModuleClass_loaded W _ _ s1 Hm Hc).
      + eexists _, _. by rewrite (fetchAppModuleClass_loaded W _ _ s1 Hm Hn).
    - eexists _, _. by apply fetchAppModuleClass_absent. }
  destruct Hfetch as (c & evs & Hfetch).
  rewrite (bind_ok _ _ _ _ _ Hfetch). simpl truthy. cbv iota.
  rewrite bind_assoc, (bind_ok _ _ _ _ _ (instantiate_class W c _ _ _)).
  unfold bind at 1. unfold set_default, modify.
  set (s4 := mkState _ _ _ _ _ _).
  unfold bind at 1. unfold get at 1.
  change (default s4) with (Some (next_ref s)).
  cbv beta iota.
  rewrite (bind_ok _ _ _ _ _ (loadKeyMap_no_file W "_default" _ s4 Hf Hd)).
  eexists. split; [reflexivity|].
  simpl. apply elem_of_app. right. repeat constructor.
Qed.

End Startup.

(** C2: what [initialize] does without [_default.py]. The file being
    absent, [fetchAppModuleClass] returns the class [AppModule];
    [initialize] instantiates it and, with a key map file for [_default]
    found, returns normally with that instance as [default]: nothing is
    spoken and nothing raised. The branch that speaks
    [Could not load default module] is not reached. *)
Theorem initialize_completes_without_default_module W s :
  isfile W (modulePath "_default") = false ->
  isfile W (keyMapPath "_default" (keyboardLayout W)) = true \/
  isfile W (keyMapPath "_default" "desktop") = true ->
  exists s',
    initialize W s = (Ok tt, s') /\
    default s' = Some (next_ref s) /\
    NVDAProcessID s' = Some (os_getpid W) /\
    is_Some (heap s' !! next_ref s) /\
    runningTable s' = runningTable s.
Proof.
  intros Hno Hkbd. unfold initialize.
  unfold bind at 1. unfold set_NVDAProcessID, modify.
  set (s1 := mkState _ _ _ _ _ _).
  rewrite (bind_ok _ _ _ _ _ (fetchAppModuleClass_absent W "_default" s1 Hno)).
  simpl truthy. cbv iota.
  set (s2 := emitted s1 _).
  rewrite bind_assoc, (bind_ok _ _ _ _ _ (instantiate_class W AppModule _ _ s2)).
  set (o := Obj.mk _ _ _ _ _). set (s3 := allocated _ o).
  unfold bind at 1. unfold set_default, modify.
  set (s4 := mkState _ _ _ _ _ _).
  unfold bind at 1. unfold get at 1.
  change (default s4) with (Some (next_ref s)).
  assert (Hv : is_Some (heap s4 !! next_ref s)).
  { exists o. apply lookup_insert_eq. }
  destruct (getKeyMapFileName_frame W "_default" (keyboardLayout W) s4)
    as (res & evs & Hname & Hnone).
  destruct res as [fname|].
  2:{ destruct (proj1 Hnone eq_refl) as [Hf Hd]. destruct Hkbd; congruence. }
  destruct (loadKeyMap_found W "_default" (next_ref s) s4 fname _ Hv Hname)
    as (s5 & Hload & Hmut).
  rewrite (bind_ok _ _ _ _ _ Hload). rewrite log_eq.
  eexists. split; [reflexivity|].
  destruct Hmut as (Ht & Hd & Hn & _ & _ & Hvalid).
  simpl. rewrite Hd, Hn, Ht. repeat split; auto.
Qed.

Lemma initialize_completes_without_default_module_witness :
  exists s',
    initialize demoWorld s_init = (Ok tt, s') /\
    default s' = Some (next_ref s_init) /\
    NVDAProcessID s' = Some (os_getpid demoWorld) /\
    is_Some (heap s' !! next_ref s_init) /\
    runningTable s' = runningTable s_init.
Proof.
  apply (initialize_completes_without_default_module demoWorld s_init).
  - reflexivity.
  - right. reflexivity.
Defined.

(** The run of [initialize] on the demo desktop: class [AppModule],
    process ID ['_default'], no speech. *)
Example initialize_demo :
  fst (initialize demoWorld s_init) = Ok tt /\
  heap (snd (initialize demoWorld s_init)) !! 0%nat
  = Some (Obj.mk AppModule (PStr "_default") (PInt 100) 0 None) /\
  trace (snd (initialize demoWorld s_init))
  = [ ev_log DEBUG (msg_moduleExists "_default" false);
      ev_openProcess (PStr "_default");
      ev_log DEBUG (msg_foundKeymap "_default" "appModules/_default_desktop.kbd");
      ev_open "appModules/_default_desktop.kbd";
      ev_log DEBUG (msg_addedBindings 0 "_default" "appModules/_default_desktop.kbd");
      ev_log INFO msg_loadedDefault ].
Proof. repeat split; vm_compute; reflexivity. Qed.

(** ** The active module *)

(** Had the name been bound to the helper the spec describes, the lookup
    would be the registry's. *)
Lemma getAppModuleFromWindow_delegates W windowHandle pid s :
  windowProcessID W windowHandle = Some pid ->
  getAppModuleFromWindow W windowHandle s = getAppModuleFromProcessID W pid s.
Proof. intros H. unfold getAppModuleFromWindow. by rewrite H. Qed.

(** C9: what [getActiveModule] does. It asks for the foreground window and
    then calls [getAppModuleFromWindow], a name nothing in the module
    binds: every call ends in [NameError], before any process ID is
    extracted and without the registry being consulted. *)
Theorem getActiveModule_raises_NameError W s :
  name_bound "getAppModuleFromWindow" = false /\
  getActiveModule W s
  = (Raise (NameError "getAppModuleFromWindow"), emitted s [ev_getForegroundWindow]).
Proof. split; reflexivity. Qed.

(** ** Further properties *)

Lemma greedy_Some {R} (try : nat -> option R) lo k x :
  Re.greedy try lo k = Some x -> exists j, (lo <= j <= k)%nat /\ try j = Some x.
Proof.
  induction k as [|k IH]; simpl.
  - destruct (Nat.ltb_spec 0 lo); [discriminate|].
    destruct (try 0%nat) eqn:Ht; [|discriminate].
    intros [= ->]. exists 0%nat. split; [lia | done].
  - destruct (Nat.ltb_spec (S k) lo); [discriminate|].
    destruct (try (S k)) eqn:Ht.
    + intros [= ->]. exists (S k). split; [lia | done].
    + intros Hg. destruct (Nat.eq_dec lo (S k)) as [->|Hne].
      * destruct k; simpl in Hg.
        -- discriminate.
        -- destruct (Nat.ltb_spec (S k) (S (S k))); [discriminate | lia].
      * destruct (IH Hg) as (j & Hj & Hx). exists j. split; [lia | done].
Qed.

Lemma greedy_first {R} (try : nat -> option R) lo k j x :
  (lo <= j <= k)%nat ->
  try j = Some x ->
  (forall i, (j < i <= k)%nat -> try i = None) ->
  Re.greedy try lo k = Some x.
Proof.
  intros Hj Hx Hnone. induction k as [|k IH].
  - assert (j = 0%nat) as -> by lia. simpl.
    destruct (Nat.ltb_spec 0 lo); [lia|]. by rewrite Hx.
  - simpl. destruct (Nat.ltb_spec (S k) lo); [lia|].
    destruct (Nat.eq_dec j (S k)) as [->|Hne].
    + by rewrite Hx.
    + rewrite (Hnone (S k)) by lia. apply IH; [lia|]. intros i Hi. apply Hnone. lia.
Qed.

Lemma span_take cc s j : (j <= Re.span cc s)%nat -> all_in cc (take j s) /\ length (take j s) = j.
Proof.
  revert j. induction s as [|c t IH]; intros j Hj; simpl in Hj.
  - assert (j = 0%nat) as -> by lia. done.
  - destruct j as [|j]; [done|]. simpl.
    destruct (Re.in_class cc c) eqn:Hc; [|lia].
    destruct (IH j) as [Hall Hlen]; [lia|]. unfold all_in in *. simpl.
    rewrite Hc, Hall, Hlen. done.
Qed.

Lemma span_app_all cc l rest :
  all_in cc l ->
  Re.span cc (l ++ rest) = (length l + Re.span cc rest)%nat.
Proof.
  unfold all_in. induction l as [|c t IH]; simpl; [done|].
  intros H. apply andb_prop in H as [Hc Ht]. rewrite Hc. by rewrite IH.
Qed.

(** What a successful run means. *)
Lemma run_sound r : forall s gs gs',
  Re.run r s gs = Some gs' ->
  exists segs tail,
    s = concat segs ++ tail /\ Re.at_end tail = true /\
    segments_ok r segs /\ gs' = bound_groups r segs gs.
Proof.
  induction r as [|a r IH]; intros s gs gs' Hrun.
  - simpl in Hrun. destruct (Re.at_end s) eqn:He; [|discriminate].
    injection Hrun as <-. exists [], s. done.
  - simpl in Hrun.
    assert (Hj : exists j, (j <= Re.span (Re.a_class a) s)%nat /\
                           quant_ok (Re.a_quant a) j /\
                           Re.run r (drop j s)
                             (Re.bind_group (Re.a_group a) (take j s) gs) = Some gs').
    { destruct (Re.a_quant a); apply greedy_Some in Hrun as (j & Hj & Hx);
        exists j; (split; [lia|]); (split; [simpl; lia || done | done]). }
    destruct Hj as (j & Hj & Hq & Hrest).
    destruct (IH _ _ _ Hrest) as (segs & tail & Hs & He & Hok & Hg).
    destruct (span_take _ _ _ Hj) as [Hall Hlen].
    exists (take j s :: segs), tail. simpl. rewrite Hlen.
    split; [|done].
    rewrite <- app_assoc, <- Hs. by rewrite take_drop.
Qed.

Lemma greedy_top {R} (try : nat -> option R) lo k x :
  (lo <= k)%nat -> try k = Some x -> Re.greedy try lo k = Some x.
Proof.
  intros Hk Hx. apply (greedy_first try lo k k x); [lia | done | intros i Hi; lia].
Qed.

Lemma all_in_elem cc l c : all_in cc l -> c ∈ l -> Re.in_class cc c = true.
Proof.
  unfold all_in. rewrite forallb_forall. intros H Hc. apply H. by apply list_elem_of_In.
Qed.

Lemma all_in_app cc l1 l2 : all_in cc l1 -> all_in cc l2 -> all_in cc (l1 ++ l2).
Proof. unfold all_in. rewrite forallb_app. by intros -> ->. Qed.

Lemma at_end_space tail : Re.at_end tail = true -> all_in Re.cc_space tail.
Proof.
  destruct tail as [|c [|d t]]; simpl; try done.
  intros Hc. apply Ascii.eqb_eq in Hc as ->. reflexivity.
Qed.

Lemma span_stop cc l rest :
  all_in cc l ->
  match rest with [] => True | c :: _ => Re.in_class cc c = false end ->
  Re.span cc (l ++ rest) = length l.
Proof.
  intros Hl Hrest. rewrite span_app_all by done.
  destruct rest as [|c t]; simpl; [lia|]. rewrite Hrest. lia.
Qed.

(** A repetition that can take its whole run and go on. *)
Lemma run_take_all cc q g r seg rest gs x :
  all_in cc seg ->
  match rest with [] => True | c :: _ => Re.in_class cc c = false end ->
  match q with Re.q_one => length seg = 1%nat | Re.q_star => True
          | Re.q_plus => (1 <= length seg)%nat end ->
  Re.run r rest (Re.bind_group g seg gs) = Some x ->
  Re.run (Re.mkAtom cc q g :: r) (seg ++ rest) gs = Some x.
Proof.
  intros Hseg Hrest Hq Hrun. simpl.
  rewrite (span_stop cc seg rest Hseg Hrest).
  assert (Htry : Re.run r (drop (length seg) (seg ++ rest))
                   (Re.bind_group g (take (length seg) (seg ++ rest)) gs) = Some x).
  { by rewrite drop_app_length, take_app_length. }
  destruct q.
  - rewrite Hq. simpl. rewrite Hq in Htry. by rewrite Htry.
  - apply greedy_top; [lia | done].
  - apply greedy_top; [lia | done].
Qed.

Lemma segments_literal r : forall segs c g,
  segments_ok r segs ->
  Re.mkAtom (Re.cc_lit c) Re.q_one g ∈ r ->
  c ∈ concat segs.
Proof.
  induction r as [|a r IH]; intros segs c g Hok Hin.
  - by apply elem_of_nil in Hin.
  - destruct segs as [|seg segs]; [done|]. destruct Hok as (Hall & Hq & Hok).
    simpl. apply elem_of_app. apply elem_of_cons in Hin as [<- | Hin].
    + left. simpl in Hall, Hq. destruct seg as [|d [|? ?]]; try discriminate.
      unfold all_in in Hall. simpl in Hall. rewrite andb_true_r in Hall.
      apply Ascii.eqb_eq in Hall as ->. apply elem_of_cons. by left.
    + right. eauto.
Qed.

(** A pattern with a literal character matches only text that has it. *)
Lemma run_needs_literal r s gs gs' c g :
  Re.run r s gs = Some gs' ->
  Re.mkAtom (Re.cc_lit c) Re.q_one g ∈ r ->
  c ∈ s.
Proof.
  intros Hrun Hin. apply run_sound in Hrun as (segs & tail & -> & _ & Hok & _).
  apply elem_of_app. left. eapply segments_literal; eauto.
Qed.


Lemma chars_str l : PyStr.chars (PyStr.str l) = l.
Proof. apply list_ascii_of_string_of_list_ascii. Qed.

(** X1: whatever line [re_keyScript] matches has the shape
    white space, key, white space, "=", white space, script, white space,
    where key and script are non-empty and free of white space; the groups
    [key] and [script] are exactly those two pieces. So a line without "="
    binds nothing, and no bound key or script name is empty or holds a
    blank. *)
Theorem re_keyScript_match_shape line m :
  Re.rmatch re_keyScript line = Some m ->
  exists w0 key w1 w2 script w3,
    PyStr.chars line = w0 ++ key ++ w1 ++ "="%char :: w2 ++ script ++ w3 /\
    ws w0 /\ ws w1 /\ ws w2 /\ ws w3 /\ word key /\ word script /\
    m = [("script", PyStr.str script); ("key", PyStr.str key)].
Proof.
  unfold Re.rmatch. intros Hrun.
  apply run_sound in Hrun as (segs & tail & Hs & He & Hok & ->).
  unfold re_keyScript in Hok.
  destruct segs as [|w0 [|key [|w1 [|eq [|w2 [|script [|w3 [|? ?]]]]]]]]; simpl in Hok;
    try tauto.
  destruct Hok as (H0 & _ & Hk & Hkn & H1 & _ & Heq & Heqn & H2 & _ & Hsc & Hscn & H3 & _).
  destruct eq as [|c [|? ?]]; try discriminate.
  unfold all_in in Heq. simpl in Heq. rewrite andb_true_r in Heq.
  apply Ascii.eqb_eq in Heq as ->.
  exists w0, key, w1, w2, script, (w3 ++ tail). rewrite Hs. simpl.
  split; [rewrite app_nil_r; by repeat (rewrite <- app_assoc; simpl)|].
  repeat split; try done.
  - apply all_in_app; [done | by apply at_end_space].
  - intros ->. simpl in Hkn. lia.
  - intros ->. simpl in Hscn. lia.
Qed.

Lemma run_one cc g r c rest gs x :
  Re.in_class cc c = true ->
  Re.run r rest (Re.bind_group g [c] gs) = Some x ->
  Re.run (Re.mkAtom cc Re.q_one g :: r) (c :: rest) gs = Some x.
Proof.
  intros Hc Hrun. cbn [Re.run Re.a_class Re.a_quant Re.a_group Re.span]. rewrite Hc.
  replace (Nat.min (S (Re.span cc rest)) 1) with 1%nat by lia.
  simpl. by rewrite drop_0, take_0, Hrun.
Qed.

Lemma ws_no_eq l : ws l -> "="%char ∉ l.
Proof. intros Hl Hin. by pose proof (all_in_elem _ _ _ Hl Hin). Qed.

Lemma word_head l rest :
  word l ->
  match l ++ rest with [] => True | c :: _ => Re.in_class Re.cc_space c = false end.
Proof.
  intros [Hall Hne]. destruct l as [|c t]; [done|]. simpl.
  unfold all_in in Hall. simpl in Hall. apply andb_prop in Hall as [Hc _].
  by apply negb_true_iff in Hc.
Qed.

Lemma ws_head l :
  ws l ->
  match l with [] => True | c :: _ => Re.in_class Re.cc_nonspace c = false end.
Proof.
  intros Hall. destruct l as [|c t]; [done|].
  unfold ws, all_in in Hall. simpl in Hall. apply andb_prop in Hall as [Hc _].
  simpl in *. by rewrite Hc.
Qed.

(** X2: every line of the shape white space, key, white space, "=", white
    space, script, white space (a final newline included), with key and
    script non-empty and free of white space and no "=" in script, is
    matched, with exactly that key and that script as groups; the blanks
    around "=" are optional. *)
Theorem re_keyScript_parses w0 key w1 w2 script w3 :
  ws w0 -> ws w1 -> ws w2 -> ws w3 -> word key -> word script ->
  "="%char ∉ script ->
  Re.rmatch re_keyScript (PyStr.str (w0 ++ key ++ w1 ++ "="%char :: w2 ++ script ++ w3))
  = Some [("script", PyStr.str script); ("key", PyStr.str key)].
Proof.
  intros H0 H1 H2 H3 Hkey Hscript Hnoeq.
  unfold Re.rmatch. rewrite chars_str. unfold re_keyScript.
  apply run_take_all; [done | by apply word_head | done |]. simpl Re.bind_group.
  set (tail := [Re.mkAtom Re.cc_space Re.q_star None;
                Re.mkAtom (Re.cc_lit "=") Re.q_one None;
                Re.mkAtom Re.cc_space Re.q_star None;
                Re.mkAtom Re.cc_nonspace Re.q_plus (Some "script");
                Re.mkAtom Re.cc_space Re.q_star None]).
  set (rest0 := w1 ++ "="%char :: w2 ++ script ++ w3).
  change (Re.run (Re.mkAtom Re.cc_nonspace Re.q_plus (Some "key") :: tail)
                 (key ++ rest0) [] = Some [("script", PyStr.str script); ("key", PyStr.str key)]).
  destruct Hkey as [Hkall Hkne].
  assert (Hklen : (1 <= length key)%nat) by (destruct key; [done | simpl; lia]).
  pose proof (span_app_all Re.cc_nonspace key rest0 Hkall) as Hspan.
  cbn [Re.run Re.a_class Re.a_quant Re.a_group].
  apply (greedy_first _ 1 _ (length key)); [lia | |].
  - rewrite drop_app_length, take_app_length. simpl Re.bind_group.
    subst tail rest0.
    apply run_take_all; [done | simpl; reflexivity | done |]. simpl Re.bind_group.
    apply run_one; [reflexivity|]. simpl Re.bind_group.
    apply run_take_all; [done | by apply word_head | done |]. simpl Re.bind_group.
    destruct Hscript as [Hsall Hsne].
    apply run_take_all; [done | by apply ws_head | |].
    { destruct script; [done | simpl; lia]. }
    simpl Re.bind_group. rewrite <- (app_nil_r w3).
    apply run_take_all; [done | done | done |]. reflexivity.
  - intros i Hi.
    destruct (Re.run tail (drop i (key ++ rest0))
                (Re.bind_group (Some "key") (take i (key ++ rest0)) [])) eqn:Htry; [|done].
    exfalso.
    assert (Hin : "="%char ∈ drop i (key ++ rest0)).
    { eapply run_needs_literal; [exact Htry|]. subst tail.
      apply elem_of_cons. right. apply elem_of_cons. left. reflexivity. }
    rewrite drop_app_ge in Hin by lia.
    subst rest0. destruct w1 as [|c w1].
    + simpl in Hin. destruct (i - length key)%nat as [|j] eqn:Hj; [lia|].
      simpl in Hin. apply (subseteq_drop j) in Hin.
      apply elem_of_app in Hin as [Hin | Hin]; [by apply (ws_no_eq w2)|].
      apply elem_of_app in Hin as [Hin | Hin]; [done | by apply (ws_no_eq w3)].
    + rewrite (span_stop Re.cc_nonspace key _ Hkall) in Hi; [lia|].
      exact (ws_head (c :: w1) H1).
Qed.

(** X3: [fetchAppModuleClass] never returns [None], whatever its docstring
    says: the result is the class [AppModule], or what an existing
    extension binds [AppModule] to (nothing being spoken then), or
    [RuntimeError]. The call only adds events: registry, default and
    instances are untouched. *)
Theorem fetchAppModuleClass_never_None W appName s :
  exists evs,
    snd (fetchAppModuleClass W appName s) = emitted s evs /\
    fst (fetchAppModuleClass W appName s) <> Ok PyNone /\
    (fst (fetchAppModuleClass W appName s) = Ok (PyClassObj AppModule) \/
     isfile W (modulePath appName) = true /\
     ((exists attr, import_module W appName = ImportedWith attr /\ attr <> PyNone /\
                    fst (fetchAppModuleClass W appName s) = Ok attr /\
                    Forall (fun e => forall t, e <> ev_speakMessage t) evs) \/
      fst (fetchAppModuleClass W appName s) = Raise (RuntimeError ""))).
Proof.
  destruct (isfile W (modulePath appName)) eqn:Hf.
  - destruct (import_module W appName) as [| |attr] eqn:Hi.
    + rewrite (fetchAppModuleClass_broken W appName s Hf (or_introl Hi)).
      eexists. split; [reflexivity|]. split; [discriminate|]. right. split; [done|]. by right.
    + rewrite (fetchAppModuleClass_broken W appName s Hf (or_intror Hi)).
      eexists. split; [reflexivity|]. split; [discriminate|]. right. split; [done|]. by right.
    + rewrite (fetchAppModuleClass_loaded W appName attr s Hf Hi).
      eexists. split; [reflexivity|]. simpl.
      destruct attr as [|c|]; (split; [discriminate|]).
      * by left.
      * right. split; [done|]. left. exists (PyClassObj c).
        repeat split; try done. repeat constructor; discriminate.
      * right. split; [done|]. left. exists PyFalsy.
        repeat split; try done. repeat constructor; discriminate.
  - rewrite (fetchAppModuleClass_absent W appName s Hf).
    eexists. split; [reflexivity|]. split; [discriminate|]. by left.
Qed.

(** X4: [getKeyMapFileName] never raises and never names a file that is not
    there: a name it returns is the path for the requested layout or the
    one for desktop, and [os.path.isfile] holds of it; [None] means both
    are absent. One nested call is the most it makes: any recursion limit
    of two or more gives the same result. *)
Theorem getKeyMapFileName_names_existing_file W appName layout s :
  exists res evs,
    getKeyMapFileName W appName layout s = (Ok res, emitted s evs) /\
    (forall fname, res = Some fname ->
       isfile W fname = true /\
       (fname = keyMapPath appName layout \/ fname = keyMapPath appName "desktop")) /\
    (res = None ->
       isfile W (keyMapPath appName layout) = false /\
       isfile W (keyMapPath appName "desktop") = false) /\
    (forall depth, (2 <= depth)%nat ->
       getKeyMapFileName_rec W depth appName layout s = (Ok res, emitted s evs)).
Proof.
  assert (Hmain : exists res evs,
    getKeyMapFileName W appName layout s = (Ok res, emitted s evs) /\
    (forall fname, res = Some fname ->
       isfile W fname = true /\
       (fname = keyMapPath appName layout \/ fname = keyMapPath appName "desktop")) /\
    (res = None ->
       isfile W (keyMapPath appName layout) = false /\
       isfile W (keyMapPath appName "desktop") = false)).
  { destruct (isfile W (keyMapPath appName layout)) eqn:Hf.
    - eexists _, _. split; [by apply getKeyMapFileName_requested|].
      split; [|discriminate]. intros fname [= <-]. auto.
    - destruct (isfile W (keyMapPath appName "desktop")) eqn:Hd.
      + destruct (String.eqb_spec layout "desktop") as [->|Hl]; [congruence|].
        eexists _, _. split; [by apply getKeyMapFileName_fallback|].
        split; [|discriminate]. intros fname [= <-]. auto.
      + eexists _, _. split; [by apply getKeyMapFileName_none|].
        split; [discriminate | done]. }
  destruct Hmain as (res & evs & Hrun & Hsome & Hnone).
  exists res, evs. repeat split; try done; try (by apply Hsome); try (by apply Hnone).
  intros depth Hd. by rewrite getKeyMapFileName_depth.
Qed.


Lemma bindLines_no_match W appName amod lines bindCount s :
  Forall (fun line => Re.rmatch re_keyScript line = None) lines ->
  bindLines W appName amod lines bindCount s = (Ok bindCount, s).
Proof.
  induction 1 as [|line rest Hno Hrest IH]; simpl; [done|]. by rewrite Hno.
Qed.

(** X6: a key map file in which no line matches the pattern still wipes the
    key map: an instance that has a key map of its own is left with an
    empty one, zero bindings are reported, and [True] is returned; an
    instance without a key map of its own is not changed at all. *)
Theorem loadKeyMap_without_bindings_clears W appName amod s o fname :
  heap s !! amod = Some o ->
  fst (getKeyMapFileName W appName (keyboardLayout W) s) = Ok (Some fname) ->
  Forall (fun line => Re.rmatch re_keyScript line = None) (keyMapLines W fname) ->
  loadKeyMap W appName amod s
  = (Ok true,
     emitted (stored s amod (cleared o))
             [ev_log DEBUG (msg_foundKeymap appName fname); ev_open fname;
              ev_log DEBUG (msg_addedBindings 0 appName fname)]) /\
  (Obj._keyMap o = None -> stored s amod (cleared o) = s).
Proof.
  intros Ho Hname Hlines.
  assert (Hrun : getKeyMapFileName W appName (keyboardLayout W) s
                 = (Ok (Some fname), emitted s [ev_log DEBUG (msg_foundKeymap appName fname)])).
  { destruct (isfile W (keyMapPath appName (keyboardLayout W))) eqn:Hf.
    - rewrite getKeyMapFileName_requested in Hname |- * by done.
      simpl in Hname. by injection Hname as <-.
    - destruct (isfile W (keyMapPath appName "desktop")) eqn:Hd.
      + destruct (String.eqb_spec (keyboardLayout W) "desktop") as [Heq|Hl];
          [rewrite Heq in Hf; congruence|].
        rewrite getKeyMapFileName_fallback in Hname |- * by done.
        simpl in Hname. by injection Hname as <-.
      + rewrite getKeyMapFileName_none in Hname by done. discriminate. }
  split.
  - unfold loadKeyMap. rewrite (bind_ok _ _ _ _ _ Hrun).
    rewrite (bind_ok _ _ _ _ _ (emit_eq _ _)).
    rewrite emitted_emitted.
    set (s2 := emitted s _).
    assert (Ho2 : heap s2 !! amod = Some o) by done.
    rewrite (bind_ok _ _ _ _ _ (deref_ok _ _ _ Ho2)).
    assert (Hclear :
              match Obj._keyMap o with
              | Some _ =>
                  store amod (Obj.mk (Obj.cls o) (Obj.processID o) (Obj.appName o)
                                     (Obj.processHandle o) (Some ∅))
              | None => ret tt
              end s2 = (Ok tt, stored s2 amod (cleared o))).
    { unfold cleared. destruct (Obj._keyMap o); [done|].
      unfold ret, stored. simpl. rewrite insert_id by done. by destruct s. }
    rewrite (bind_ok _ _ _ _ _ Hclear).
    rewrite (bind_ok _ _ _ _ _ (bindLines_no_match _ _ _ _ _ _ Hlines)).
    rewrite (bind_ok _ _ _ _ _ (log_eq _ _ _)).
    subst s2. by rewrite stored_emitted, emitted_emitted.
  - intros Hnone. unfold cleared, stored. rewrite Hnone, insert_id by done. by destruct s.
Qed.

Lemma lower_char_idem c : PyStr.lower_char (PyStr.lower_char c) = PyStr.lower_char c.
Proof. destruct c as [[] [] [] [] [] [] [] []]; reflexivity. Qed.

Lemma lower_idem x : PyStr.lower (PyStr.lower x) = PyStr.lower x.
Proof.
  unfold PyStr.lower. rewrite chars_str, map_map. f_equal.
  apply map_ext. intros c. apply lower_char_idem.
Qed.

(** X7: without [includeExt], the name [getAppNameFromProcessID] returns is
    in lower case, for NVDA's own process and for any other: lower-casing
    it again changes nothing. *)
Theorem getAppNameFromProcessID_lower_case W processID s name s' :
  getAppNameFromProcessID W processID false s = (Ok name, s') ->
  PyStr.lower name = name.
Proof.
  unfold getAppNameFromProcessID. unfold bind at 1. unfold get at 1.
  destruct (match NVDAProcessID s with
            | Some nvda => pyval_eqb processID (PInt nvda)
            | None => false
            end).
  - intros [= <- _]. reflexivity.
  - rewrite (bind_ok _ _ _ _ _ (emit_eq _ _)), (bind_ok _ _ _ _ _ (emit_eq _ _)).
    simpl negb. cbv iota. rewrite (bind_ok _ _ _ _ _ (log_eq _ _ _)).
    intros [= <- _]. apply lower_idem.
Qed.

(** X8: once [getAppModuleFromProcessID] has returned an instance for a
    process ID, from a hit or from a miss, asking again returns the same
    instance and changes nothing, not even the trace. *)
Theorem getAppModuleFromProcessID_again W pid s r s' :
  getAppModuleFromProcessID W pid s = (Ok (Some r), s') ->
  getAppModuleFromProcessID W pid s' = (Ok (Some r), s').
Proof.
  intros Hrun. apply getAppModuleFromProcessID_hit.
  destruct (runningTable s !! pid) as [[r0|]|] eqn:Ht.
  - rewrite (getAppModuleFromProcessID_hit W pid r0 s Ht) in Hrun.
    by injection Hrun as <- <-.
  - destruct (getAppModuleFromProcessID_miss W pid s) as (res & s1 & Hrun1 & _ & Hout);
      [intros r1; rewrite Ht; discriminate|].
    rewrite Hrun in Hrun1. injection Hrun1 as <- <-.
    destruct Hout as [(e & He & _) | (amod & [= <-] & ->)]; [discriminate|].
    apply lookup_insert_eq.
  - destruct (getAppModuleFromProcessID_miss W pid s) as (res & s1 & Hrun1 & _ & Hout);
      [intros r1; rewrite Ht; discriminate|].
    rewrite Hrun in Hrun1. injection Hrun1 as <- <-.
    destruct Hout as [(e & He & _) | (amod & [= <-] & ->)]; [discriminate|].
    apply lookup_insert_eq.
Qed.

(** X9: a lookup, returning or raising, leaves every entry of the registry
    other than the one of the process looked up as it is, leaves the
    instances that exist as they are, removes no entry, and does not
    replace an instance that is cached for the process looked up. *)
Theorem getAppModuleFromProcessID_changes_one_entry W pid s :
  (forall k, k <> pid ->
     runningTable (snd (getAppModuleFromProcessID W pid s)) !! k = runningTable s !! k) /\
  (forall r : ref, (r < next_ref s)%nat ->
     heap (snd (getAppModuleFromProcessID W pid s)) !! r = heap s !! r) /\
  dom (runningTable s) ⊆ dom (runningTable (snd (getAppModuleFromProcessID W pid s))) /\
  (forall r : ref, runningTable s !! pid = Some (Some r) ->
     runningTable (snd (getAppModuleFromProcessID W pid s)) !! pid = Some (Some r)).
Proof.
  destruct (getAppModuleFromProcessID_frame W pid s) as (Hn & Hh & Ht).
  split; [|split; [done|split]].
  - intros k Hk. destruct (Ht k) as [Heq | [Hpid _]]; [done | congruence].
  - intros k Hk. apply elem_of_dom in Hk. apply elem_of_dom.
    destruct (Ht k) as [Heq | (_ & [Heq | (r & Heq & _)])]; rewrite Heq; eauto.
  - intros r Hr. by rewrite (getAppModuleFromProcessID_hit W pid r s Hr).
Qed.

Lemma set_runningTable_eq t s : set_runningTable t s = (Ok tt, with_runningTable s t).
Proof. reflexivity. Qed.

Section MissPath.
Variable W : World.

(** The three ways a cache miss can go. *)
Lemma getAppModuleFromProcessID_miss_path pid s :
  (forall r, runningTable s !! pid <> Some (Some r)) ->
  exists name evs res evs2,
    getAppNameFromProcessID W (PInt pid) false s = (Ok name, emitted s evs) /\
    fetchAppModuleClass W name (emitted s evs) = (res, emitted (emitted s evs) evs2) /\
    let s2 := emitted s (evs ++ evs2) in
    match res with
    | Raise e => getAppModuleFromProcessID W pid s = (Raise e, s2)
    | Ok (PyClassObj c) =>
        let s4 := emitted (allocated s2 (new_instance W c pid name))
                          (construct_events c pid name) in
        exists b s5,
          loadKeyMap W name (next_ref s) s4 = (Ok b, s5) /\
          getAppModuleFromProcessID W pid s
          = (Ok (Some (next_ref s)),
             with_runningTable s5 (<[pid := Some (next_ref s)]> (runningTable s5)))
    | Ok _ =>
        getAppModuleFromProcessID W pid s
        = (Ok None, with_runningTable s2 (<[pid := None]> (runningTable s)))
    end.
Proof.
  intros Hmiss.
  destruct (getAppNameFromProcessID_total W (PInt pid) false s) as (name & evs & Hname).
  destruct (fetchAppModuleClass_frame W name (emitted s evs)) as (res & evs2 & Hfetch & Hnn).
  exists name, evs, res, evs2. split; [done|]. split; [done|]. cbv zeta.
  assert (Hunf : getAppModuleFromProcessID W pid s =
    (appName <- getAppNameFromProcessID W (PInt pid) false ;;
     modClass <- fetchAppModuleClass W appName ;;
     amod <- (if truthy modClass then
                r <- instantiate W modClass (PInt pid) (Some (PStr appName)) ;;
                o <- deref r ;;
                (if negb (match modClass with
                          | PyClassObj c => pyclass_eqb c AppModule
                          | _ => false
                          end)
                 then log INFO (msg_loadedAppModule (Obj.appName o))
                 else ret tt) ;;
                loadKeyMap W (py_str (Obj.appName o)) r ;;
                ret (Some r)
              else ret None) ;;
     s' <- get ;;
     set_runningTable (<[pid := amod]> (runningTable s')) ;;
     ret amod) s).
  { unfold getAppModuleFromProcessID. unfold bind at 1. unfold get at 1.
    destruct (runningTable s !! pid) as [[r|]|] eqn:Ht; [by destruct (Hmiss r) | done | done]. }
  rewrite Hunf. clear Hunf.
  rewrite (bind_ok _ _ _ _ _ Hname).
  destruct res as [modClass|e].
  2:{ rewrite (bind_raise _ _ _ _ _ Hfetch). by rewrite emitted_emitted. }
  rewrite (bind_ok _ _ _ _ _ Hfetch). rewrite emitted_emitted.
  destruct modClass as [|c|]; [done| |].
  - simpl truthy. cbv iota.
    set (s2 := emitted s (evs ++ evs2)).
    set (o := new_instance W c pid name).
    set (s3 := allocated (emitted s2 [ev_openProcess (PInt pid)]) o).
    set (s4 := emitted (allocated s2 o) (construct_events c pid name)).
    assert (Ho : heap s3 !! next_ref s2 = Some o) by apply lookup_insert_eq.
    assert (Hlog :
              (if negb (pyclass_eqb c AppModule)
               then log INFO (msg_loadedAppModule (Obj.appName o))
               else ret tt) s3 = (Ok tt, s4)).
    { subst s4 s3. unfold construct_events. destruct (pyclass_eqb c AppModule); simpl.
      - reflexivity.
      - rewrite log_eq. f_equal. unfold emitted, allocated; simpl.
        by rewrite <- !app_assoc. }
    destruct (loadKeyMap_total W name (next_ref s) s4) as (b & s5 & Hload & Hm5).
    { exists o. subst s4. simpl. apply lookup_insert_eq. }
    exists b, s5. split; [done|].
    rewrite bind_assoc, (bind_ok _ _ _ _ _ (instantiate_class W c _ _ s2)).
    fold o. fold s3.
    rewrite bind_assoc, (bind_ok _ _ _ _ _ (deref_ok _ _ _ Ho)).
    rewrite bind_assoc, (bind_ok _ _ _ _ _ Hlog).
    change (py_str (Obj.appName o)) with name.
    change (next_ref s2) with (next_ref s).
    rewrite bind_assoc, (bind_ok _ _ _ _ _ Hload). reflexivity.
  - reflexivity.
Qed.
End MissPath.

Lemma heap_keeps_refl s : heap_keeps s s.
Proof. intros r o Ho. eauto. Qed.

Lemma heap_keeps_trans s1 s2 s3 : heap_keeps s1 s2 -> heap_keeps s2 s3 -> heap_keeps s1 s3.
Proof.
  intros H12 H23 r o Ho. destruct (H12 r o Ho) as (o2 & Ho2 & Hp2).
  destruct (H23 r o2 Ho2) as (o3 & Ho3 & Hp3). exists o3. split; [done | congruence].
Qed.

Lemma same_shape_refl s : same_shape s s.
Proof. repeat split; auto using heap_keeps_refl. Qed.

Lemma same_shape_trans s1 s2 s3 : same_shape s1 s2 -> same_shape s2 s3 -> same_shape s1 s3.
Proof.
  intros (Ht & Hn & Hd & Hk) (Ht' & Hn' & Hd' & Hk').
  repeat split; try congruence; eauto using heap_keeps_trans.
Qed.

Lemma same_shape_emitted s evs : same_shape s (emitted s evs).
Proof. split; [done|]. split; [done|]. split; [done|]. exact (heap_keeps_refl s). Qed.

Lemma same_shape_stored s r o o' :
  heap s !! r = Some o -> Obj.processID o' = Obj.processID o ->
  same_shape s (stored s r o').
Proof.
  intros Ho Hp. repeat split; simpl.
  - intros r' Hr'. destruct (decide (r = r')) as [<-|Hne]; [eauto|].
    by rewrite lookup_insert_ne in Hr'.
  - intros r' o0 Ho0. simpl. destruct (decide (r = r')) as [<-|Hne].
    + rewrite lookup_insert_eq. exists o'. split; [done | congruence].
    + rewrite lookup_insert_ne by done. eauto.
Qed.

Lemma snd_bind_rel (R : State -> State -> Prop) {A B} (m : M A) (k : A -> M B) s :
  (forall s1 s2 s3, R s1 s2 -> R s2 s3 -> R s1 s3) ->
  R s (snd (m s)) ->
  (forall a s1, R s1 (snd (k a s1))) ->
  R s (snd (bind m k s)).
Proof.
  intros Htrans Hm Hk. unfold bind. destruct (m s) as [[a|e] s1]; simpl in *; eauto.
Qed.

Lemma snd_bind_pred (P : State -> Prop) {A B} (m : M A) (k : A -> M B) s :
  P (snd (m s)) ->
  (forall a s1, P s1 -> P (snd (k a s1))) ->
  P (snd (bind m k s)).
Proof.
  intros Hm Hk. unfold bind. destruct (m s) as [[a|e] s1]; simpl in *; eauto.
Qed.

Section Shape.
Variable W : World.
Hypothesis Hbind : binds_keep_processID W.

Lemma bindLines_shape appName amod lines : forall bindCount s,
  same_shape s (snd (bindLines W appName amod lines bindCount s)).
Proof.
  induction lines as [|line rest IH]; intros bindCount s; simpl.
  - apply same_shape_refl.
  - destruct (Re.rmatch re_keyScript line) as [m|]; [|apply IH].
    destruct (heap s !! amod) as [o|] eqn:Ho.
    + rewrite (bind_ok _ _ _ _ _ (deref_ok _ _ _ Ho)).
      rewrite (bind_ok _ _ _ _ _ (emit_eq _ _)).
      rewrite (bind_ok _ _ _ _ _ (store_eq _ _ _)).
      set (r := bindKey_runtime W o (Re.group m "key") (Re.group m "script")).
      assert (Hs1 : same_shape s (stored (emitted s [ev_bindKey_runtime amod
                       (Re.group m "key") (Re.group m "script")]) amod (fst r))).
      { eapply same_shape_trans; [apply same_shape_emitted|].
        eapply same_shape_stored; [exact Ho | apply Hbind]. }
      destruct (snd r).
      * eapply same_shape_trans; [exact Hs1 | apply IH].
      * rewrite (bind_ok _ _ _ _ _ (log_eq _ _ _)).
        eapply same_shape_trans; [exact Hs1|].
        eapply same_shape_trans; [apply same_shape_emitted | apply IH].
    + unfold bind at 1. unfold deref, bind, get. rewrite Ho. simpl. apply same_shape_refl.
Qed.

Lemma loadKeyMap_shape appName amod s :
  same_shape s (snd (loadKeyMap W appName amod s)).
Proof.
  destruct (getKeyMapFileName_frame W appName (keyboardLayout W) s)
    as (res & evs & Hname & _).
  unfold loadKeyMap. rewrite (bind_ok _ _ _ _ _ Hname).
  destruct res as [fname|]; [|apply same_shape_emitted].
  rewrite (bind_ok _ _ _ _ _ (emit_eq _ _)). rewrite emitted_emitted.
  set (s2 := emitted s _).
  apply (same_shape_trans s s2); [apply same_shape_emitted|].
  destruct (heap s2 !! amod) as [o|] eqn:Ho.
  - rewrite (bind_ok _ _ _ _ _ (deref_ok _ _ _ Ho)).
    apply snd_bind_rel; [exact same_shape_trans | |].
    + destruct (Obj._keyMap o); [|apply same_shape_refl].
      rewrite store_eq. simpl. by eapply same_shape_stored.
    + intros [] s3. apply snd_bind_rel; [exact same_shape_trans | apply bindLines_shape |].
      intros n s4. rewrite (bind_ok _ _ _ _ _ (log_eq _ _ _)). apply same_shape_emitted.
  - unfold bind at 1. unfold deref, bind, get. rewrite Ho. simpl. apply same_shape_refl.
Qed.

Lemma registry_ok_shape s s' : registry_ok s -> same_shape s s' -> registry_ok s'.
Proof.
  intros [Hfresh Hent] (Ht & Hn & Hd & Hk). split.
  - intros r Hr. rewrite Hn. auto.
  - intros k v Hv. rewrite Ht in Hv.
    destruct (Hent k v Hv) as [-> | (r & o & -> & Ho & Hp)]; [by left|].
    right. destruct (Hk r o Ho) as (o' & Ho' & Hp'). exists r, o'.
    split; [done|]. split; [done | congruence].
Qed.
End Shape.

Lemma registry_ok_emitted s evs : registry_ok s -> registry_ok (emitted s evs).
Proof. done. Qed.

Lemma registry_ok_delete s k :
  registry_ok s -> registry_ok (with_runningTable s (delete k (runningTable s))).
Proof.
  intros [Hfresh Hent]. split; [done|]. intros k' v Hv. simpl in Hv.
  apply lookup_delete_Some in Hv as [_ Hv]. by apply Hent.
Qed.

Lemma registry_ok_allocated s o : registry_ok s -> registry_ok (allocated s o).
Proof.
  intros [Hfresh Hent]. split.
  - intros r Hr. simpl in *. destruct (decide (next_ref s = r)) as [<-|Hne]; [lia|].
    rewrite lookup_insert_ne in Hr by done. apply Hfresh in Hr. lia.
  - intros k v Hv. destruct (Hent k v Hv) as [-> | (r & o' & -> & Ho & Hp)]; [by left|].
    right. exists r, o'. split; [done|]. split; [|done]. simpl.
    rewrite lookup_insert_ne; [done|]. assert (r < next_ref s)%nat by eauto. lia.
Qed.

Lemma hit_or_miss pid s :
  (exists r : ref, runningTable s !! pid = Some (Some r)) \/
  (forall r : ref, runningTable s !! pid <> Some (Some r)).
Proof.
  destruct (runningTable s !! pid) as [[r|]|]; [left; eauto | right | right];
    intros r; discriminate.
Qed.

Section Invariant.
Variable W : World.
Hypothesis Hbind : binds_keep_processID W.

Lemma getAppModuleFromProcessID_registry_ok pid s :
  registry_ok s -> registry_ok (snd (getAppModuleFromProcessID W pid s)).
Proof.
  intros Hok.
  destruct (hit_or_miss pid s) as [[r Ht] | Hmiss].
  { by rewrite (getAppModuleFromProcessID_hit W pid r s Ht). }
  destruct (getAppModuleFromProcessID_miss_path W pid s Hmiss)
    as (name & evs & res & evs2 & _ & _ & Hpath).
  cbv zeta in Hpath.
  assert (Hnone : registry_ok
            (with_runningTable (emitted s (evs ++ evs2)) (<[pid := None]> (runningTable s)))).
  { destruct Hok as [Hfresh Hent]. split; [done|].
    intros k v Hv. simpl in Hv. destruct (decide (pid = k)) as [<-|Hne].
    - rewrite lookup_insert_eq in Hv. injection Hv as <-. by left.
    - rewrite lookup_insert_ne in Hv by done. by apply Hent. }
  destruct res as [[|c|]|e].
  - by rewrite Hpath.
  - destruct Hpath as (b & s5 & Hload & ->). simpl.
    set (s4 := emitted _ _) in Hload.
    pose proof (loadKeyMap_shape W Hbind name (next_ref s) s4) as Hshape.
    rewrite Hload in Hshape. simpl in Hshape.
    assert (Hok4 : registry_ok s4).
    { apply registry_ok_emitted, registry_ok_allocated, registry_ok_emitted, Hok. }
    destruct (registry_ok_shape s4 s5 Hok4 Hshape) as [Hfresh5 Hent5].
    split; [done|]. intros k v Hv. simpl in Hv.
    destruct (decide (pid = k)) as [<-|Hne].
    + rewrite lookup_insert_eq in Hv. injection Hv as <-. right.
      destruct Hshape as (_ & _ & _ & Hkeep).
      destruct (Hkeep (next_ref s) (new_instance W c pid name)) as (o' & Ho' & Hp').
      { subst s4. simpl. apply lookup_insert_eq. }
      exists (next_ref s), o'. split; [done|]. split; [done|]. by rewrite Hp'.
    + rewrite lookup_insert_ne in Hv by done. by apply Hent5.
  - by rewrite Hpath.
  - rewrite Hpath. simpl. exact Hok.
Qed.

(** A lookup leaves the instances there are in place, each with its
    process ID. *)
Lemma getAppModuleFromProcessID_heap_keeps pid s :
  registry_ok s -> heap_keeps s (snd (getAppModuleFromProcessID W pid s)).
Proof.
  intros Hok.
  destruct (hit_or_miss pid s) as [[r Ht] | Hmiss].
  { rewrite (getAppModuleFromProcessID_hit W pid r s Ht). apply heap_keeps_refl. }
  destruct (getAppModuleFromProcessID_miss_path W pid s Hmiss)
    as (name & evs & res & evs2 & _ & _ & Hpath).
  cbv zeta in Hpath.
  destruct res as [[|c|]|e]; try (rewrite Hpath; intros r o Ho; by exists o).
  destruct Hpath as (b & s5 & Hload & ->). simpl.
  set (s4 := emitted _ _) in Hload.
  pose proof (loadKeyMap_shape W Hbind name (next_ref s) s4) as Hshape.
  rewrite Hload in Hshape. simpl in Hshape.
  destruct Hshape as (_ & _ & _ & Hkeep).
  intros r o Ho. apply (Hkeep r o). subst s4. simpl.
  rewrite lookup_insert_ne; [done|].
  destruct Hok as [Hfresh _]. assert (r < next_ref s)%nat by eauto. lia.
Qed.

Lemma getAppModuleFromProcessID_keeps_entry pid s k (r : ref) :
  runningTable s !! k = Some (Some r) ->
  runningTable (snd (getAppModuleFromProcessID W pid s)) !! k = Some (Some r).
Proof.
  intros Hk. destruct (decide (k = pid)) as [->|Hne].
  - by rewrite (getAppModuleFromProcessID_hit W pid r s Hk).
  - destruct (getAppModuleFromProcessID_frame W pid s) as (_ & _ & Ht).
    destruct (Ht k) as [Heq | [Hpid _]]; [by rewrite Heq | congruence].
Qed.
End Invariant.



Lemma deref_frame r s : snd (deref r s) = s.
Proof. unfold deref, bind, get. by destruct (heap s !! r). Qed.

Lemma forM__pred (P : State -> Prop) {A} (body : A -> M unit) l : forall s,
  (forall x s1, P s1 -> P (snd (body x s1))) ->
  P s -> P (snd (forM_ l body s)).
Proof.
  induction l as [|x t IH]; intros s Hbody Hs; simpl; [done|].
  apply snd_bind_pred; [by apply Hbody|]. intros [] s1 Hs1. by apply IH.
Qed.

Section Invariant2.
Variable W : World.
Hypothesis Hbind : binds_keep_processID W.

Lemma deadMods_frame values : forall s,
  exists res evs, deadMods W values s = (res, emitted s evs).
Proof.
  induction values as [|[r|] rest IH]; intros s; simpl.
  - eexists _, []. by rewrite emitted_nil.
  - destruct (heap s !! r) as [o|] eqn:Ho.
    + rewrite (bind_ok _ _ _ _ _ (isAlive_eq W r o s Ho)).
      destruct (IH (emitted s [ev_waitForSingleObject (Obj.processHandle o)]))
        as ([dead|e] & evs & Hrest).
      * rewrite (bind_ok _ _ _ _ _ Hrest). eexists _, _. by rewrite emitted_emitted.
      * rewrite (bind_raise _ _ _ _ _ Hrest). eexists _, _. by rewrite emitted_emitted.
    + eexists _, []. rewrite emitted_nil. unfold isAlive.
      unfold bind at 1. unfold bind at 1. unfold deref, bind, get. by rewrite Ho.
  - eexists _, []. by rewrite emitted_nil.
Qed.

Lemma del_runningTable_registry_ok key s :
  registry_ok s -> registry_ok (snd (del_runningTable key s)).
Proof.
  intros Hok. unfold del_runningTable. unfold bind at 1. unfold get at 1.
  destruct key as [k|]; [|done].
  destruct (runningTable s !! k); [|done].
  rewrite set_runningTable_eq. simpl. by apply registry_ok_delete.
Qed.

Lemma update_body_registry_ok pid d s :
  registry_ok s -> registry_ok (snd (update_body W pid d s)).
Proof.
  intros Hok. unfold update_body.
  apply snd_bind_pred; [by rewrite deref_frame|]. intros o s1 Hs1.
  rewrite (bind_ok _ _ _ _ _ (log_eq _ _ _)).
  apply snd_bind_pred; [by apply del_runningTable_registry_ok, registry_ok_emitted|].
  intros [] s2 Hs2.
  apply snd_bind_pred.
  { destruct (inFocus W d); [destruct (has_event_appLoseFocus W (Obj.cls o))|]; done. }
  intros [] s3 Hs3.
  apply snd_bind_pred; [by apply getAppModuleFromProcessID_registry_ok|]. done.
Qed.

Lemma update_registry_ok pid s :
  registry_ok s -> registry_ok (snd (update W pid s)).
Proof.
  intros Hok. unfold update. unfold bind at 1. unfold get at 1.
  apply snd_bind_pred.
  - destruct (deadMods_frame ((map_to_list (runningTable s)).*2) s) as (res & evs & ->).
    by apply registry_ok_emitted.
  - intros dead s1 Hs1. apply forM__pred; [|done].
    intros d s2. apply update_body_registry_ok.
Qed.

Lemma initialize_registry_ok s :
  registry_ok s -> registry_ok (snd (initialize W s)).
Proof.
  intros Hok. unfold initialize.
  apply snd_bind_pred; [done|]. intros [] s1 Hs1.
  apply snd_bind_pred.
  { destruct (fetchAppModuleClass_frame W "_default" s1) as (res & evs & -> & _).
    by apply registry_ok_emitted. }
  intros defaultModClass s2 Hs2.
  apply snd_bind_pred.
  { destruct (truthy defaultModClass); [|done].
    apply snd_bind_pred; [|done].
    destruct defaultModClass as [|c|]; try done.
    rewrite instantiate_class. by apply registry_ok_allocated, registry_ok_emitted. }
  intros [] s3 Hs3. unfold bind at 1. unfold get at 1.
  destruct (default s3) as [d|]; [|done].
  apply snd_bind_pred.
  { eapply registry_ok_shape; [exact Hs3 | by apply loadKeyMap_shape]. }
  intros loaded s4 Hs4. by destruct loaded.
Qed.

Lemma after_calls_registry_ok calls : forall s,
  registry_ok s -> registry_ok (after_calls W calls s).
Proof.
  induction calls as [|c rest IH]; intros s Hok; [done|].
  simpl. apply IH. destruct c; simpl.
  - by apply initialize_registry_ok.
  - by apply getAppModuleFromProcessID_registry_ok.
  - by apply update_registry_ok.
Qed.
End Invariant2.

(** X14: provided [bindKey_runtime] leaves the process ID of an instance
    alone, any sequence of calls of [initialize],
    [getAppModuleFromProcessID] and [update] from the freshly imported
    module, returning or raising, leaves the registry consistent: every
    cached instance exists and carries the process ID it is cached under,
    and no instance is cached under two process IDs. *)
Theorem registry_consistent_after_any_calls W calls :
  binds_keep_processID W ->
  let s := after_calls W calls s_init in
  registry_ok s /\
  (forall k1 k2 (r : ref),
     runningTable s !! k1 = Some (Some r) ->
     runningTable s !! k2 = Some (Some r) -> k1 = k2) /\
  (forall k (r : ref),
     runningTable s !! k = Some (Some r) ->
     exists o, heap s !! r = Some o /\ Obj.processID o = PInt k).
Proof.
  intros Hbind s.
  assert (Hok : registry_ok s).
  { apply after_calls_registry_ok; [done|]. split.
    - intros r [o Ho]. unfold s_init in Ho. simpl in Ho. by rewrite lookup_empty in Ho.
    - intros k v Hv. unfold s_init in Hv. simpl in Hv. by rewrite lookup_empty in Hv. }
  assert (Hent : forall k (r : ref), runningTable s !! k = Some (Some r) ->
                   exists o, heap s !! r = Some o /\ Obj.processID o = PInt k).
  { intros k r Hk. destruct Hok as [_ Hent].
    destruct (Hent k _ Hk) as [? | (r' & o & [= <-] & Ho & Hp)]; [done | eauto]. }
  split; [done|]. split; [|done].
  intros k1 k2 r H1 H2.
  destruct (Hent k1 r H1) as (o1 & Ho1 & Hp1).
  destruct (Hent k2 r H2) as (o2 & Ho2 & Hp2).
  rewrite Ho1 in Ho2. injection Ho2 as <-. congruence.
Qed.

Section Live.
Variable W : World.
Hypothesis Hbind : binds_keep_processID W.

Lemma deadMods_dead values : forall s dead s1,
  deadMods W values s = (Ok dead, s1) ->
  forall d, d ∈ dead ->
    Some d ∈ values /\
    exists o, heap s !! d = Some o /\ waitForSingleObject W (Obj.processHandle o) = 0.
Proof.
  induction values as [|[r|] rest IH]; intros s dead s1 Hrun d Hd; simpl in Hrun.
  - injection Hrun as <- <-. by apply elem_of_nil in Hd.
  - destruct (heap s !! r) as [o|] eqn:Ho.
    + rewrite (bind_ok _ _ _ _ _ (isAlive_eq W r o s Ho)) in Hrun.
      apply bind_inv_ok in Hrun as (dead' & s2 & Hrest & Hret).
      injection Hret as <- <-.
      destruct (Z.eqb_spec (waitForSingleObject W (Obj.processHandle o)) 0) as [Hz|Hnz];
        simpl in Hd.
      * apply elem_of_cons in Hd as [-> | Hd].
        -- split; [apply elem_of_cons; by left | eauto].
        -- destruct (IH _ _ _ Hrest d Hd) as [Hin Hex].
           split; [apply elem_of_cons; by right | exact Hex].
      * destruct (IH _ _ _ Hrest d Hd) as [Hin Hex].
        split; [apply elem_of_cons; by right | exact Hex].
    + unfold isAlive in Hrun. unfold bind at 1 in Hrun. unfold bind at 1 in Hrun.
      unfold deref, bind, get in Hrun. rewrite Ho in Hrun. discriminate.
  - discriminate.
Qed.

(** One round of the loop, for a dead instance cached under another
    process ID than [k]: the entry of [k] stays. *)
Lemma update_body_keeps_live pid d s k (r : ref) o kd :
  registry_ok s ->
  runningTable s !! k = Some (Some r) ->
  heap s !! d = Some o -> Obj.processID o = PInt kd -> kd <> k ->
  registry_ok (snd (update_body W pid d s)) /\
  runningTable (snd (update_body W pid d s)) !! k = Some (Some r) /\
  heap_keeps s (snd (update_body W pid d s)).
Proof.
  intros Hok Hk Ho Hp Hne. unfold update_body.
  rewrite (bind_ok _ _ _ _ _ (deref_ok _ _ _ Ho)).
  rewrite (bind_ok _ _ _ _ _ (log_eq _ _ _)).
  set (s1 := emitted s _). rewrite Hp.
  assert (Hdel : del_runningTable (PInt kd) s1
                 = match runningTable s1 !! kd with
                   | Some _ => (Ok tt, with_runningTable s1 (delete kd (runningTable s1)))
                   | None => (Raise (KeyError (PInt kd)), s1)
                   end).
  { unfold del_runningTable. unfold bind at 1. unfold get at 1.
    by destruct (runningTable s1 !! kd). }
  destruct (runningTable s1 !! kd) as [v|] eqn:Hkd.
  2:{ rewrite (bind_raise _ _ _ _ _ Hdel). simpl.
      split; [done|]. split; [done | exact (heap_keeps_refl s)]. }
  rewrite (bind_ok _ _ _ _ _ Hdel).
  set (s2 := with_runningTable s1 _).
  assert (Hok2 : registry_ok s2) by (by apply registry_ok_delete).
  assert (Hk2 : runningTable s2 !! k = Some (Some r)).
  { subst s2. simpl. by rewrite lookup_delete_ne. }
  assert (Hfocus : exists evs,
            (if inFocus W d
             then if has_event_appLoseFocus W (Obj.cls o)
                  then emit (ev_appLoseFocus d) else ret tt
             else ret tt) s2 = (Ok tt, emitted s2 evs)).
  { destruct (inFocus W d); [destruct (has_event_appLoseFocus W (Obj.cls o))|].
    - eexists. apply emit_eq.
    - exists []. by rewrite emitted_nil.
    - exists []. by rewrite emitted_nil. }
  destruct Hfocus as (evs & Hfocus). rewrite (bind_ok _ _ _ _ _ Hfocus).
  set (s3 := emitted s2 evs).
  assert (Hlook : forall res s4, getAppModuleFromProcessID W pid s3 = (res, s4) ->
            registry_ok s4 /\ runningTable s4 !! k = Some (Some r) /\ heap_keeps s s4).
  { intros res s4 Hrun.
    pose proof (getAppModuleFromProcessID_registry_ok W Hbind pid s3 Hok2) as H1.
    pose proof (getAppModuleFromProcessID_keeps_entry W pid s3 k r Hk2) as H2.
    pose proof (getAppModuleFromProcessID_heap_keeps W Hbind pid s3 Hok2) as H3.
    rewrite Hrun in H1, H2, H3. simpl in H1, H2, H3.
    split; [exact H1|]. split; [exact H2 | exact H3]. }
  destruct (getAppModuleFromProcessID W pid s3) as [[amod|e] s4] eqn:Hrun.
  - rewrite (bind_ok _ _ _ _ _ Hrun). simpl. eauto.
  - rewrite (bind_raise _ _ _ _ _ Hrun). simpl. eauto.
Qed.

Lemma update_loop_keeps_live pid k (r : ref) dead : forall s,
  registry_ok s ->
  runningTable s !! k = Some (Some r) ->
  (forall d, d ∈ dead ->
     exists o kd, heap s !! d = Some o /\ Obj.processID o = PInt kd /\ kd <> k) ->
  runningTable (snd (forM_ dead (update_body W pid) s)) !! k = Some (Some r).
Proof.
  induction dead as [|d rest IH]; intros s Hok Hk Hdead; simpl; [done|].
  destruct (Hdead d) as (o & kd & Ho & Hp & Hne); [apply elem_of_cons; by left|].
  destruct (update_body_keeps_live pid d s k r o kd Hok Hk Ho Hp Hne) as (Hok1 & Hk1 & Hkeep).
  unfold bind. destruct (update_body W pid d s) as [[[]|e] s1]; simpl in *; [|done].
  apply IH; [done | done |].
  intros d' Hd'. destruct (Hdead d') as (o' & kd' & Ho' & Hp' & Hne');
    [apply elem_of_cons; by right|].
  destruct (Hkeep d' o' Ho') as (o'' & Ho'' & Hp''). exists o'', kd'.
  split; [done|]. split; [congruence | done].
Qed.
End Live.

(** X13: on a consistent registry (and with [bindKey_runtime] leaving
    process IDs alone) [update] never evicts an instance whose process is
    alive: whether the call returns or raises, and whatever process ID it
    is called for, the entry is there afterwards, with the same
    instance. *)
Theorem update_keeps_live_entries W pid s k (r : ref) o :
  binds_keep_processID W ->
  registry_ok s ->
  runningTable s !! k = Some (Some r) ->
  heap s !! r = Some o ->
  waitForSingleObject W (Obj.processHandle o) <> 0 ->
  runningTable (snd (update W pid s)) !! k = Some (Some r).
Proof.
  intros Hbind Hok Hk Ho Halive.
  unfold update. unfold bind at 1. unfold get at 1.
  destruct (deadMods_frame W ((map_to_list (runningTable s)).*2) s) as (res & evs & Hdm).
  destruct res as [dead|e]; [|by rewrite (bind_raise _ _ _ _ _ Hdm)].
  rewrite (bind_ok _ _ _ _ _ Hdm).
  apply update_loop_keeps_live; [done | done | done |].
  intros d Hd. destruct (deadMods_dead W _ _ _ _ Hdm d Hd) as (Hin & od & Hod & Hsig).
  apply list_elem_of_fmap in Hin as ([kd v] & Hv & Hkv). simpl in Hv. subst v.
  apply elem_of_map_to_list in Hkv.
  destruct Hok as [_ Hent].
  destruct (Hent kd _ Hkv) as [? | (d' & od' & [= <-] & Hod' & Hp)]; [done|].
  exists od', kd. split; [done|]. split; [done|].
  intros ->. rewrite Hk in Hkv. injection Hkv as ->.
  rewrite Ho in Hod. injection Hod as ->. done.
Qed.

Section Poison.
Variable W : World.

Lemma deadMods_None values : forall s,
  None ∈ values ->
  (forall r : ref, Some r ∈ values -> is_Some (heap s !! r)) ->
  exists evs, deadMods W values s = (Raise (AttributeError "isAlive"), emitted s evs).
Proof.
  induction values as [|[r|] rest IH]; intros s Hin Hvalid.
  - by apply elem_of_nil in Hin.
  - apply elem_of_cons in Hin as [? | Hin]; [done|].
    destruct (Hvalid r) as [o Ho]; [apply elem_of_cons; by left|].
    simpl. rewrite (bind_ok _ _ _ _ _ (isAlive_eq W r o s Ho)).
    destruct (IH (emitted s [ev_waitForSingleObject (Obj.processHandle o)]) Hin)
      as (evs & Hrest).
    { intros r' Hr'. apply Hvalid. apply elem_of_cons. by right. }
    rewrite (bind_raise _ _ _ _ _ Hrest). eexists. by rewrite emitted_emitted.
  - exists []. by rewrite emitted_nil.
Qed.

Lemma update_None_entry pid s k :
  runningTable s !! k = Some None ->
  (forall k' (r : ref), runningTable s !! k' = Some (Some r) -> is_Some (heap s !! r)) ->
  exists evs, update W pid s = (Raise (AttributeError "isAlive"), emitted s evs).
Proof.
  intros Hk Hvalid.
  destruct (deadMods_None ((map_to_list (runningTable s)).*2) s) as (evs & Hdm).
  - apply list_elem_of_fmap. exists (k, None). split; [done|].
    by apply elem_of_map_to_list.
  - intros r Hr. apply list_elem_of_fmap in Hr as ([k' v] & Hv & Hkv).
    simpl in Hv. subst v. apply elem_of_map_to_list in Hkv. eauto.
  - exists evs. unfold update. unfold bind at 1. unfold get at 1.
    by rewrite (bind_raise _ _ _ _ _ Hdm).
Qed.
End Poison.

(** X11: an extension that binds [AppModule] to a false object poisons the
    registry. The lookup constructs nothing, returns [None] and caches
    [None] for the process; from then on every call of [update], for any
    process ID, ends in [AttributeError] on [None.isAlive] and evicts
    nothing. *)
Theorem falsy_AppModule_stops_update W pid s name :
  (forall r : ref, runningTable s !! pid <> Some (Some r)) ->
  (forall k (r : ref), runningTable s !! k = Some (Some r) -> is_Some (heap s !! r)) ->
  fst (getAppNameFromProcessID W (PInt pid) false s) = Ok name ->
  isfile W (modulePath name) = true ->
  import_module W name = ImportedWith PyFalsy ->
  let s' := snd (getAppModuleFromProcessID W pid s) in
  fst (getAppModuleFromProcessID W pid s) = Ok None /\
  runningTable s' !! pid = Some None /\
  heap s' = heap s /\
  forall pid', exists evs,
    update W pid' s' = (Raise (AttributeError "isAlive"), emitted s' evs) /\
    runningTable (emitted s' evs) = runningTable s'.
Proof.
  intros Hmiss Hvalid Hname Hfile Himp.
  destruct (getAppModuleFromProcessID_miss_path W pid s Hmiss)
    as (name' & evs & res & evs2 & Hn & Hfetch & Hpath).
  rewrite Hn in Hname. simpl in Hname. injection Hname as ->.
  rewrite (fetchAppModuleClass_loaded W name PyFalsy _ Hfile Himp) in Hfetch.
  injection Hfetch as <- _. cbv zeta in Hpath. rewrite Hpath. cbv zeta. simpl.
  split; [done|]. split; [apply lookup_insert_eq|]. split; [done|].
  intros pid'.
  destruct (update_None_entry W pid'
              (with_runningTable (emitted s (evs ++ evs2)) (<[pid := None]> (runningTable s)))
              pid) as (evs' & Hupd).
  - simpl. apply lookup_insert_eq.
  - intros k' r Hr. simpl in Hr. destruct (decide (pid = k')) as [<-|Hne].
    + rewrite lookup_insert_eq in Hr. discriminate.
    + rewrite lookup_insert_ne in Hr by done. simpl. eauto.
  - exists evs'. split; [exact Hupd | done].
Qed.

Section Globals.
Variable W : World.

Lemma bindLines_NVDAProcessID appName amod lines : forall bindCount s,
  NVDAProcessID (snd (bindLines W appName amod lines bindCount s)) = NVDAProcessID s.
Proof.
  induction lines as [|line rest IH]; intros bindCount s; simpl; [done|].
  destruct (Re.rmatch re_keyScript line) as [m|]; [|apply IH].
  destruct (heap s !! amod) as [o|] eqn:Ho.
  - rewrite (bind_ok _ _ _ _ _ (deref_ok _ _ _ Ho)).
    rewrite (bind_ok _ _ _ _ _ (emit_eq _ _)).
    rewrite (bind_ok _ _ _ _ _ (store_eq _ _ _)).
    destruct (snd (bindKey_runtime W o (Re.group m "key") (Re.group m "script"))).
    + by rewrite IH.
    + rewrite (bind_ok _ _ _ _ _ (log_eq _ _ _)). by rewrite IH.
  - unfold bind at 1. unfold deref, bind, get. by rewrite Ho.
Qed.

Lemma loadKeyMap_NVDAProcessID appName amod s :
  NVDAProcessID (snd (loadKeyMap W appName amod s)) = NVDAProcessID s.
Proof.
  destruct (getKeyMapFileName_frame W appName (keyboardLayout W) s)
    as (res & evs & Hname & _).
  unfold loadKeyMap. rewrite (bind_ok _ _ _ _ _ Hname).
  destruct res as [fname|]; [|done].
  rewrite (bind_ok _ _ _ _ _ (emit_eq _ _)).
  set (s2 := emitted (emitted s evs) _).
  destruct (heap s2 !! amod) as [o|] eqn:Ho.
  - rewrite (bind_ok _ _ _ _ _ (deref_ok _ _ _ Ho)).
    assert (Hclear : exists s3,
              match Obj._keyMap o with
              | Some _ =>
                  store amod (Obj.mk (Obj.cls o) (Obj.processID o) (Obj.appName o)
                                     (Obj.processHandle o) (Some ∅))
              | None => ret tt
              end s2 = (Ok tt, s3) /\ NVDAProcessID s3 = NVDAProcessID s).
    { destruct (Obj._keyMap o).
      - eexists. split; [apply store_eq | done].
      - exists s2. split; [reflexivity | done]. }
    destruct Hclear as (s3 & Hclear & Hn3).
    rewrite (bind_ok _ _ _ _ _ Hclear).
    pose proof (bindLines_NVDAProcessID appName amod (keyMapLines W fname) 0%nat s3) as Hb.
    destruct (bindLines W appName amod (keyMapLines W fname) 0%nat s3)
      as [[n|e] s4] eqn:Hrun; simpl in Hb.
    + rewrite (bind_ok _ _ _ _ _ Hrun), (bind_ok _ _ _ _ _ (log_eq _ _ _)).
      simpl. congruence.
    + rewrite (bind_raise _ _ _ _ _ Hrun). simpl. congruence.
  - unfold bind at 1. unfold deref, bind, get. by rewrite Ho.
Qed.
End Globals.

(** X17: [initialize] records the process ID of NVDA before anything can
    fail: whether it returns or raises, afterwards [NVDAProcessID] is
    [os.getpid()], and [getAppNameFromProcessID] answers for that process
    ID with the fixed name and without a snapshot. *)
Theorem initialize_records_own_process W s (includeExt : bool) :
  NVDAProcessID (snd (initialize W s)) = Some (os_getpid W) /\
  getAppNameFromProcessID W (PInt (os_getpid W)) includeExt (snd (initialize W s))
  = (Ok (if includeExt then "nvda.exe" else "nvda"), snd (initialize W s)).
Proof.
  assert (Hpid : NVDAProcessID (snd (initialize W s)) = Some (os_getpid W)).
  { unfold initialize.
    apply (snd_bind_pred (fun s' => NVDAProcessID s' = Some (os_getpid W))); [done|].
    intros [] s1 Hs1.
    apply (snd_bind_pred (fun s' => NVDAProcessID s' = Some (os_getpid W))).
    { by destruct (fetchAppModuleClass_frame W "_default" s1) as (res & evs & -> & _). }
    intros defaultModClass s2 Hs2.
    apply (snd_bind_pred (fun s' => NVDAProcessID s' = Some (os_getpid W))).
    { destruct (truthy defaultModClass); [|done].
      apply (snd_bind_pred (fun s' => NVDAProcessID s' = Some (os_getpid W))); [|done].
      by destruct defaultModClass as [|c|]. }
    intros [] s3 Hs3. unfold bind at 1. unfold get at 1.
    destruct (default s3) as [d|]; [|done].
    apply (snd_bind_pred (fun s' => NVDAProcessID s' = Some (os_getpid W))).
    { by rewrite loadKeyMap_NVDAProcessID. }
    intros loaded s4 Hs4. by destruct loaded. }
  split; [done|]. by apply getAppNameFromProcessID_own.
Qed.

(** X16: when the default class is found and no key map file for
    [_default] exists, [initialize] speaks
    [Could not load default module keyMap] last and raises [RuntimeError],
    but not before it has assigned the instance it built to [default]: the
    module is left with a default that has no key map. The registry is
    untouched. *)
Theorem initialize_aborts_without_keyMap W s :
  isfile W (modulePath "_default") = false \/
  (exists c, import_module W "_default" = ImportedWith (PyClassObj c)) \/
  import_module W "_default" = ImportedWith PyNone ->
  isfile W (keyMapPath "_default" (keyboardLayout W)) = false ->
  isfile W (keyMapPath "_default" "desktop") = false ->
  fst (initialize W s)
  = Raise (RuntimeError "appModuleHandler.initialize: could not load default module keymap") /\
  default (snd (initialize W s)) = Some (next_ref s) /\
  (exists c, heap (snd (initialize W s)) !! next_ref s
             = Some (Obj.mk c (PStr "_default") (PInt (getDesktopWindow W))
                            (openProcess W (PStr "_default")) None)) /\
  runningTable (snd (initialize W s)) = runningTable s /\
  last (trace (snd (initialize W s)))
  = Some (ev_speakMessage "Could not load default module keyMap").
Proof.
  intros Hcls Hf Hd.
  assert (Hrun : exists c evs sd,
    sd = mkState (runningTable s) (Some (next_ref s)) (Some (os_getpid W))
                 (<[next_ref s := Obj.mk c (PStr "_default") (PInt (getDesktopWindow W))
                                         (openProcess W (PStr "_default")) None]> (heap s))
                 (S (next_ref s)) (trace s ++ evs) /\
    initialize W s
    = (Raise (RuntimeError "appModuleHandler.initialize: could not load default module keymap"),
       emitted sd [ev_log DEBUG (msg_noKeymap "_default");
                   ev_speakMessage "Could not load default module keyMap"])).
  { unfold initialize.
    unfold bind at 1. unfold set_NVDAProcessID, modify.
    set (s1 := mkState _ _ _ _ _ _).
    assert (Hfetch : exists c evs,
              fetchAppModuleClass W "_default" s1 = (Ok (PyClassObj c), emitted s1 evs)).
    { destruct (isfile W (modulePath "_default")) eqn:Hm.
      - destruct Hcls as [? | [[c Hc] | Hn]]; [done | |].
        + eexists _, _. by rewrite (fetchAppModuleClass_loaded W _ _ s1 Hm Hc).
        + eexists _, _. by rewrite (fetchAppModuleClass_loaded W _ _ s1 Hm Hn).
      - eexists _, _. by apply fetchAppModuleClass_absent. }
    destruct Hfetch as (c & evs & Hfetch).
    eexists c, (evs ++ [ev_openProcess (PStr "_default")]), _. split; [reflexivity|].
    rewrite (bind_ok _ _ _ _ _ Hfetch). simpl truthy. cbv iota.
    rewrite bind_assoc, (bind_ok _ _ _ _ _ (instantiate_class W c _ _ _)).
    unfold bind at 1. unfold set_default, modify.
    set (s4 := mkState _ _ _ _ _ _).
    unfold bind at 1. unfold get at 1.
    change (default s4) with (Some (next_ref s)). cbv beta iota.
    rewrite (bind_ok _ _ _ _ _ (loadKeyMap_no_file W "_default" _ s4 Hf Hd)).
    rewrite (bind_ok _ _ _ _ _ (emit_eq _ _)).
    unfold raise. f_equal. subst s4 s1. unfold emitted, allocated. simpl.
    by rewrite <- !app_assoc. }
  destruct Hrun as (c & evs & sd & -> & ->). simpl.
  split; [done|]. split; [done|]. split; [exists c; apply lookup_insert_eq|].
  split; [done|].
  by rewrite last_app.
Qed.

Lemma emitted_inj s evs evs' : emitted s evs = emitted s evs' -> evs = evs'.
Proof. unfold emitted. intros [= H]. by apply app_inv_head in H. Qed.

(** X10: a miss for a process that is not NVDA's, whose name has neither an
    extension nor a key map file, constructs an instance of the class
    [AppModule] with that process ID, the resolved name and the handle
    [openProcess] gave, without a key map, caches it under the process ID
    and returns it; no [Loaded appModule] message is logged. A process
    missing from the snapshot gets such an instance too, under the empty
    name. *)
Theorem getAppModuleFromProcessID_constructs W pid s :
  (forall r : ref, runningTable s !! pid <> Some (Some r)) ->
  NVDAProcessID s <> Some pid ->
  let name := PyStr.lower (fst (PyStr.splitext (scan_snapshot (snapshot W) (PInt pid)))) in
  isfile W (modulePath name) = false ->
  isfile W (keyMapPath name (keyboardLayout W)) = false ->
  isfile W (keyMapPath name "desktop") = false ->
  getAppModuleFromProcessID W pid s
  = (Ok (Some (next_ref s)),
     mkState (<[pid := Some (next_ref s)]> (runningTable s)) (default s) (NVDAProcessID s)
             (<[next_ref s := Obj.mk AppModule (PInt pid) (PStr name)
                                     (openProcess W (PInt pid)) None]> (heap s))
             (S (next_ref s))
             (trace s ++ [ev_CreateToolhelp32Snapshot; ev_CloseHandle;
                          ev_log DEBUG (msg_appName name);
                          ev_log DEBUG (msg_moduleExists name false);
                          ev_openProcess (PInt pid);
                          ev_log DEBUG (msg_noKeymap name)])).
Proof.
  intros Hmiss Hother name Hmod Hf Hd.
  destruct (getAppModuleFromProcessID_miss_path W pid s Hmiss)
    as (name' & evs & res & evs2 & Hn & Hfetch & Hpath).
  rewrite (getAppNameFromProcessID_other W pid false s Hother) in Hn.
  cbv zeta in Hn. fold name in Hn. injection Hn as <- Hevs.
  apply app_inv_head in Hevs. subst evs.
  rewrite (fetchAppModuleClass_absent W name _ Hmod) in Hfetch.
  injection Hfetch as <- Hevs2. apply app_inv_head in Hevs2. subst evs2.
  cbv zeta in Hpath. destruct Hpath as (b & s5 & Hload & ->).
  rewrite (loadKeyMap_no_file W name _ _ Hf Hd) in Hload. injection Hload as <- <-.
  f_equal. unfold with_runningTable, emitted, allocated, new_instance, construct_events.
  simpl. f_equal. by rewrite <- !app_assoc.
Qed.

(** X15: when [_default.py] exists and fails to load, [initialize] raises
    the [RuntimeError] of [fetchAppModuleClass] after the error has been
    logged and spoken; by then it has recorded the process ID of NVDA and
    nothing else: no instance is built, [default] and the registry are as
    they were. *)
Theorem initialize_aborts_on_broken_default W s :
  isfile W (modulePath "_default") = true ->
  import_module W "_default" = ImportRaises \/ import_module W "_default" = ImportedWithout ->
  initialize W s
  = (Raise (RuntimeError ""),
     mkState (runningTable s) (default s) (Some (os_getpid W)) (heap s) (next_ref s)
             (trace s ++ [ev_log DEBUG (msg_moduleExists "_default" true);
                          ev_import "_default";
                          ev_log ERROR (msg_errorInAppModule "_default");
                          ev_speakMessage "Error in appModule _default"])).
Proof.
  intros Hyes Hfail. unfold initialize.
  unfold bind at 1. unfold set_NVDAProcessID, modify.
  set (s1 := mkState _ _ _ _ _ _).
  by rewrite (bind_raise _ _ _ _ _ (fetchAppModuleClass_broken W "_default" s1 Hyes Hfail)).
Qed.

Lemma initialize_aborts_on_broken_default_witness :
  initialize brokenDefaultWorld s_init
  = (Raise (RuntimeError ""),
     mkState ∅ None (Some 1000) ∅ 0%nat
             [ev_log DEBUG (msg_moduleExists "_default" true);
              ev_import "_default";
              ev_log ERROR (msg_errorInAppModule "_default");
              ev_speakMessage "Error in appModule _default"]).
Proof.
  apply (initialize_aborts_on_broken_default brokenDefaultWorld s_init).
  - reflexivity.
  - left. reflexivity.
Defined.

Lemma re_keyScript_match_shape_witness :
  exists w0 key w1 w2 script w3,
    PyStr.chars "ctrl+a = doSomething" = w0 ++ key ++ w1 ++ "="%char :: w2 ++ script ++ w3 /\
    ws w0 /\ ws w1 /\ ws w2 /\ ws w3 /\ word key /\ word script /\
    [("script", "doSomething"); ("key", "ctrl+a")]
    = [("script", PyStr.str script); ("key", PyStr.str key)].
Proof.
  apply (re_keyScript_match_shape "ctrl+a = doSomething"
           [("script", "doSomething"); ("key", "ctrl+a")]).
  reflexivity.
Defined.

Lemma re_keyScript_parses_witness :
  Re.rmatch re_keyScript
    (PyStr.str ([] ++ PyStr.chars "NVDA+t" ++ [] ++ "="%char :: [] ++
                PyStr.chars "title" ++ PyStr.chars PyStr.nl))
  = Some [("script", PyStr.str (PyStr.chars "title"));
          ("key", PyStr.str (PyStr.chars "NVDA+t"))].
Proof.
  apply (re_keyScript_parses [] (PyStr.chars "NVDA+t") [] [] (PyStr.chars "title")
           (PyStr.chars PyStr.nl)); try reflexivity.
  - split; [reflexivity | discriminate].
  - split; [reflexivity | discriminate].
  - intros Hin. apply list_elem_of_In in Hin. simpl in Hin. intuition discriminate.
Defined.


Lemma loadKeyMap_without_bindings_clears_witness :
  loadKeyMap demoWorld "bogus" 0%nat s_word
  = (Ok true,
     emitted (stored s_word 0%nat (cleared word_instance))
             [ev_log DEBUG (msg_foundKeymap "bogus" "appModules/bogus_laptop.kbd");
              ev_open "appModules/bogus_laptop.kbd";
              ev_log DEBUG (msg_addedBindings 0 "bogus" "appModules/bogus_laptop.kbd")]) /\
  Obj._keyMap (cleared word_instance) = Some ∅.
Proof.
  split; [|reflexivity].
  apply (loadKeyMap_without_bindings_clears demoWorld "bogus" 0%nat s_word word_instance
           "appModules/bogus_laptop.kbd").
  - unfold s_word; simpl. apply lookup_singleton_eq.
  - reflexivity.
  - unfold keyMapLines. simpl. repeat constructor.
Defined.

Lemma getAppNameFromProcessID_lower_case_witness : PyStr.lower "winword" = "winword".
Proof.
  apply (getAppNameFromProcessID_lower_case demoWorld (PInt 77) s_started "winword"
           (snd (getAppNameFromProcessID demoWorld (PInt 77) false s_started))).
  reflexivity.
Defined.

Lemma getAppModuleFromProcessID_again_witness :
  getAppModuleFromProcessID demoWorld 77
    (snd (getAppModuleFromProcessID demoWorld 77 s_started))
  = (Ok (Some 0%nat), snd (getAppModuleFromProcessID demoWorld 77 s_started)).
Proof.
  apply (getAppModuleFromProcessID_again demoWorld 77 s_started).
  vm_compute. reflexivity.
Defined.

Lemma getAppModuleFromProcessID_constructs_witness :
  getAppModuleFromProcessID demoWorld 4 s_started
  = (Ok (Some 0%nat),
     mkState {[ 4 := Some 0%nat ]} None (Some 1000)
             {[ 0%nat := Obj.mk AppModule (PInt 4) (PStr "system") 5004 None ]}
             1%nat
             [ev_CreateToolhelp32Snapshot; ev_CloseHandle;
              ev_log DEBUG (msg_appName "system");
              ev_log DEBUG (msg_moduleExists "system" false);
              ev_openProcess (PInt 4);
              ev_log DEBUG (msg_noKeymap "system")]).
Proof.
  apply (getAppModuleFromProcessID_constructs demoWorld 4 s_started).
  - intros r. unfold s_started; simpl. rewrite lookup_empty. discriminate.
  - discriminate.
  - reflexivity.
  - reflexivity.
  - reflexivity.
Defined.

Lemma falsy_AppModule_stops_update_witness :
  fst (getAppModuleFromProcessID falsyWorld 77 s_started) = Ok None /\
  runningTable (snd (getAppModuleFromProcessID falsyWorld 77 s_started)) !! 77 = Some None /\
  exists evs,
    update falsyWorld 42 (snd (getAppModuleFromProcessID falsyWorld 77 s_started))
    = (Raise (AttributeError "isAlive"),
       emitted (snd (getAppModuleFromProcessID falsyWorld 77 s_started)) evs).
Proof.
  destruct (falsy_AppModule_stops_update falsyWorld 77 s_started "winword")
    as (Hres & Htab & _ & Hupd).
  - intros r. unfold s_started; simpl. rewrite lookup_empty. discriminate.
  - intros k r. unfold s_started; simpl. rewrite lookup_empty. discriminate.
  - reflexivity.
  - reflexivity.
  - reflexivity.
  - split; [exact Hres|]. split; [exact Htab|].
    destruct (Hupd 42) as (evs & Hrun & _). exists evs. exact Hrun.
Defined.

Lemma update_evicts_dead_witness :
  runningTable (snd (update demoWorld 77 s_two)) !! 42 <> Some (Some 1%nat).
Proof.
  apply (update_evicts_dead demoWorld 77 s_two (snd (update demoWorld 77 s_two)))
    with (o := Obj.mk AppModule (PInt 42) (PStr "c:\windows\notepad") 5042 None).
  - vm_compute. reflexivity.
  - intros r [o Ho]. unfold s_two in *; simpl in *.
    apply lookup_insert_Some in Ho as [[<- _] | [_ Ho]]; [lia|].
    apply lookup_singleton_Some in Ho as [<- _]. lia.
  - reflexivity.
  - reflexivity.
  - reflexivity.
  - reflexivity.
Defined.

Lemma update_keeps_live_entries_witness :
  runningTable (snd (update demoWorld 88 s_two)) !! 77 = Some (Some 0%nat).
Proof.
  apply (update_keeps_live_entries demoWorld 88 s_two 77 0%nat word_instance).
  - intros o key script. change (bindKey_runtime demoWorld) with demo_bindKey_runtime.
    unfold demo_bindKey_runtime. by destruct (existsb (String.eqb script) demo_scripts).
  - split.
    + intros r [o Ho]. unfold s_two in *; simpl in *.
      apply lookup_insert_Some in Ho as [[<- _] | [_ Ho]]; [lia|].
      apply lookup_singleton_Some in Ho as [<- _]. lia.
    + intros k v Hv. right. unfold s_two in *; simpl in *.
      apply lookup_insert_Some in Hv as [[<- <-] | [_ Hv]].
      * eexists 1%nat, _. split; [reflexivity|]. split; [reflexivity | reflexivity].
      * apply lookup_singleton_Some in Hv as [<- <-].
        eexists 0%nat, _. split; [reflexivity|]. split; [reflexivity | reflexivity].
  - reflexivity.
  - reflexivity.
  - simpl. discriminate.
Defined.

Lemma registry_consistent_after_any_calls_witness :
  let s := after_calls demoWorld
             [call_initialize; call_getAppModuleFromProcessID 77;
              call_getAppModuleFromProcessID 42; call_update 88;
              call_getAppModuleFromProcessID 77] s_init in
  registry_ok s /\
  (forall k1 k2 (r : ref),
     runningTable s !! k1 = Some (Some r) ->
     runningTable s !! k2 = Some (Some r) -> k1 = k2) /\
  (forall k (r : ref),
     runningTable s !! k = Some (Some r) ->
     exists o, heap s !! r = Some o /\ Obj.processID o = PInt k).
Proof.
  apply (registry_consistent_after_any_calls demoWorld).
  intros o key script. change (bindKey_runtime demoWorld) with demo_bindKey_runtime.
  unfold demo_bindKey_runtime. by destruct (existsb (String.eqb script) demo_scripts).
Defined.

Lemma initialize_aborts_without_keyMap_witness :
  fst (initialize noFilesWorld s_init)
  = Raise (RuntimeError "appModuleHandler.initialize: could not load default module keymap") /\
  default (snd (initialize noFilesWorld s_init)) = Some 0%nat.
Proof.
  destruct (initialize_aborts_without_keyMap noFilesWorld s_init) as (Hres & Hdef & _).
  - left. reflexivity.
  - reflexivity.
  - reflexivity.
  - split; [exact Hres | exact Hdef].
Defined.

(** The calls of the witness above on the demo desktop: Word is cached,
    Notepad was evicted, and the lookup of the broken extension raised. *)
Example after_calls_demo :
  runningTable (after_calls demoWorld
             [call_initialize; call_getAppModuleFromProcessID 77;
              call_getAppModuleFromProcessID 42; call_update 88;
              call_getAppModuleFromProcessID 77] s_init)
  = {[ 77 := Some 1%nat ]}.
Proof. vm_compute. reflexivity. Qed.
